(** * Battery Health Prediction System: the scoring pipeline of [app.py]

    A shallow embedding of the Streamlit script [src/app.py]: the sidebar
    readings, the derived power feature, the call of the scaler and of the
    regression model, the band classifier [get_detailed_prediction], the
    session history kept in [st.session_state], the dashboard that reads
    the last entry, and the PDF export.

    Python's [float] is IEEE 754 binary64; it is modelled by the Standard
    Library's [spec_float] at precision 53, so that products, comparisons
    and [round(x, 2)] are the ones the interpreter computes.

    The libraries are parameters of a rerun.  The pickled scaler and
    model, plotly's figure constructors and the PDF writer may raise, and
    the PDF writer reads the clock on its own; Streamlit's display calls
    are taken to return. *)

From Stdlib Require Import ZArith NArith PArith List String Ascii Bool Lia.
From Stdlib Require Import Floats.SpecFloat DecimalString.
Import ListNotations.

Local Open Scope string_scope.
Local Open Scope list_scope.
Local Open Scope Z_scope.

(** ** Python floats *)

Definition float : Type := spec_float.

Module PyFloat.

Definition prec : Z := 53.
Definition emax : Z := 1024.

(** [float(n)] for a Python int, and the value an int takes when it is
    compared with a float *)
Definition of_int (n : Z) : float := binary_normalize prec emax n 0 false.

(** [x * y] *)
Definition mul (x y : float) : float := SFmul prec emax x y.

(** [x >= y] and [x < y]: false as soon as one side is a NaN *)
Definition ge (x y : float) : bool := SFleb y x.
Definition lt (x y : float) : bool := SFltb x y.

(** The integer nearest to [n / d], ties going to the even one. *)
Definition div_half_even (n d : Z) : Z :=
  let q := n / d in
  match Z.compare (2 * (n mod d)) d with
  | Lt => q
  | Gt => q + 1
  | Eq => if Z.even q then q else q + 1
  end.

(** The binary64 value nearest to [n / d] (ties to even), with sign [s]. *)
Definition nearest_quotient (s : bool) (n d : positive) : float :=
  let '(mz, ez, lz) := SFdiv_core_binary prec emax (Zpos n) 0 (Zpos d) 0 in
  binary_round_aux prec emax s mz ez lz.

(** [strtod] on the decimal [digits * 10^(-places)] with sign [s]: how a
    decimal literal such as [29.99] is read, and the second half of
    [round]. *)
Definition of_decimal (s : bool) (digits : Z) (places : N) : float :=
  match digits with
  | Zpos n => nearest_quotient s n (Z.to_pos (10 ^ Z.of_N places))
  | _ => S754_zero s
  end.

(** NDIGITS_MAX of CPython's [float.__round__]: beyond it a float rounds
    to itself. *)
Definition NDIGITS_MAX : Z := 323.

(** [round(x, ndigits)] for a float [x] and [ndigits >= 0].  CPython
    prints [x] with [ndigits] decimals, correctly rounded from the exact
    binary value with ties to even, and reads the digits back; NaN,
    infinities and zeros round to themselves and the sign is kept. *)
Definition round (x : float) (ndigits : N) : float :=
  match x with
  | S754_finite s m e =>
      if NDIGITS_MAX <? Z.of_N ndigits then x
      else
        let scale := 10 ^ Z.of_N ndigits in
        let digits :=
          match e with
          | Zneg p => div_half_even (Zpos m * scale) (2 ^ Zpos p)
          | _ => Zpos m * 2 ^ e * scale
          end in
        of_decimal s digits ndigits
  | _ => x
  end.

End PyFloat.

(** ** The classifier (lines 36-44) *)

Definition Bands : Type := (string * string * string)%type.

Definition get_detailed_prediction (score : float) : Bands :=
  if PyFloat.ge score (PyFloat.of_int 80) then
    ("2 - 3 Years", "High (Up to 500W)", "Excellent (Solar/UPS/EV)")
  else if PyFloat.ge score (PyFloat.of_int 50) then
    ("1 - 2 Years", "Medium (Up to 150W)", "Good (LED/Fans/Small Electronics)")
  else if PyFloat.ge score (PyFloat.of_int 30) then
    ("6 Months - 1 Year", "Low (Below 50W)", "Fair (Emergency backup only)")
  else
    ("0 Months", "No Load (Recycle)", "Critical (Not safe for use)").

(** ** Exceptions, clock readings and strings *)

Record PyExn : Type := { exn_class : string; exn_msg : string }.

Definition Result (A : Type) : Type := (PyExn + A)%type.

Definition NameError (name : string) : PyExn :=
  {| exn_class := "NameError";
     exn_msg := ("name '" ++ name ++ "' is not defined")%string |}.

Definition IndexError : PyExn :=
  {| exn_class := "IndexError"; exn_msg := "index out of range" |}.

Definition AttributeError (name : string) : PyExn :=
  {| exn_class := "AttributeError"; exn_msg := name |}.

(** A reading of [datetime.now()] *)
Record datetime : Type :=
  { year : nat; month : nat; day : nat; hour : nat; minute : nat; second : nat }.

Definition decimal_N (n : N) : string :=
  DecimalString.NilZero.string_of_uint (N.to_uint n).

Definition decimal (n : nat) : string := decimal_N (N.of_nat n).

(** [%02d] *)
Definition two_digits (n : nat) : string :=
  if Nat.ltb n 10 then ("0" ++ decimal n)%string else decimal n.

(** [strftime("%H:%M:%S")] (line 55) *)
Definition strftime_HMS (d : datetime) : string :=
  (two_digits (hour d) ++ ":" ++ two_digits (minute d) ++ ":"
   ++ two_digits (second d))%string.

(** [strftime('%Y-%m-%d %H:%M')] (line 113) *)
Definition strftime_Ymd_HM (d : datetime) : string :=
  (decimal (year d) ++ "-" ++ two_digits (month d) ++ "-"
   ++ two_digits (day d) ++ " " ++ two_digits (hour d) ++ ":"
   ++ two_digits (minute d))%string.

(** [s.encode('latin-1')]: a [string] holds one byte per character, so
    every character has a latin-1 code. *)
Definition encode_latin1 (s : string) : list Byte.byte :=
  list_byte_of_string s.

(** ** The data model *)

(** The dict appended to the history (lines 54-58), one field per key *)
Record Event : Type :=
  { Time : string;
    Voltage : float; Current : float; Temp : float; Power : float;
    Score : float;
    Rem_Life : string; Rec_Load : string; Suitability : string }.

(** A 2-D numpy array of float64, row by row *)
Definition ndarray : Type := list (list float).

(** [pd.DataFrame(history)]: a RangeIndex and one row per dict, in the
    order of the list; the frame copies the values. *)
Record DataFrame : Type := { df_index : list nat; df_rows : list Event }.

Definition pd_DataFrame (data : list Event) : DataFrame :=
  {| df_index := seq 0 (List.length data); df_rows := data |}.

Definition iterrows (df : DataFrame) : list (nat * Event) :=
  combine (df_index df) (df_rows df).

(** What the script calls on the [FPDF] object, in call order; the
    keyword defaults of [fpdf] are written out ([border=0], [ln=0],
    [align=''], [style='']). *)
Inductive PdfOp : Type :=
| AddPage
| SetFont (family style : string) (size : Z)
| Cell (w h : Z) (txt : string) (border : Z) (ln : bool) (align : string)
| Ln (h : option Z).

Definition PdfDoc : Type := list PdfOp.

Inductive Figure : Type :=
| Gauge (value : float)
| Scatter3d (df : DataFrame)
| Bar (df : DataFrame).

(** What a rerun puts on the page.  Captions are kept without their
    leading emoji. *)
Inductive Element : Type :=
| st_error (body : string)
| st_title (body : string)
| st_markdown (body : string)
| st_sidebar_header (body : string)
| st_subheader (body : string)
| st_metric (label value : string)
| st_plotly_chart (fig : Figure)
| st_download_button (label : string) (data : list Byte.byte)
                     (file_name mime : string)
| st_warning (body : string)
| st_dataframe (df : DataFrame).

(** The loaded artifacts and the PDF library are opaque: each is known by
    the one method the script calls on it, which may raise.  [output]
    serialises the recorded calls; the library reads the clock itself
    while it does so (the creation date in the file's metadata), so its
    result depends on that reading as well as on the document. *)
Record Scaler : Type := { transform : ndarray -> Result ndarray }.
Record Model : Type := { predict : ndarray -> Result (list float) }.
Record FPDF : Type := { output : datetime -> PdfDoc -> Result string }.

(** What the rerun does that the world outside can see, in order *)
Inductive Effect : Type :=
| Draw (e : Element)
| ScalerTransform (X : ndarray)
| ModelPredict (X : ndarray)
| PdfOutput (doc : PdfDoc).

(** What one rerun of the script is given. *)
Record Env : Type :=
  { import_FPDF : option FPDF;          (* line 9; None: ImportError *)
    load_model : Result Model;          (* line 15 *)
    load_scaler : Result Scaler;        (* line 16 *)
    input_v : float;                    (* line 30 *)
    input_i : float;                    (* line 31 *)
    input_t : float;                    (* line 32 *)
    button : bool;                      (* line 46 *)
    clock : nat -> datetime;            (* the k-th reading of the clock *)
    float_str : float -> string;        (* str of a float in an f-string *)
    build_figure : Figure -> Result unit }.
                                        (* plotly building a figure: it
                                           validates the data it is given
                                           and may raise (lines 79, 96, 101) *)

(** [st.session_state]: the 'history' key is absent until line 26 has run;
    the page and the clock readings belong to the rerun. *)
Record Run : Type :=
  { history : option (list Event);
    trace : list Effect;
    ticks : nat }.

Definition ledger (st : Run) : list Event :=
  match history st with Some h => h | None => [] end.

(** ** The script monad: an environment, the run state, and exceptions
    that leave the state as it was when they were raised *)

Definition M (A : Type) : Type := Env -> Run -> Result A * Run.

Definition ret {A} (a : A) : M A := fun _ st => (inr a, st).

Definition bind {A B} (m : M A) (k : A -> M B) : M B :=
  fun env st =>
    match m env st with
    | (inr a, st') => k a env st'
    | (inl e, st') => (inl e, st')
    end.

Definition raise {A} (e : PyExn) : M A := fun _ st => (inl e, st).

Definition ask : M Env := fun env st => (inr env, st).

Definition lift {A} (r : Result A) : M A := fun _ st => (r, st).

(** [try: body except: handler] with a bare [except] *)
Definition try_except {A} (body handler : M A) : M A :=
  fun env st =>
    match body env st with
    | (inr a, st') => (inr a, st')
    | (inl _, st') => handler env st'
    end.

Notation "x <- m ;; k" := (bind m (fun x => k))
  (at level 61, m at next level, right associativity).
Notation "m ;; k" := (bind m (fun _ => k))
  (at level 61, right associativity).

Definition emit (f : Effect) : M unit :=
  fun _ st =>
    (inr tt, {| history := history st; trace := trace st ++ [f];
                ticks := ticks st |}).

Definition draw (e : Element) : M unit := emit (Draw e).

(** [datetime.now()] *)
Definition now : M datetime :=
  fun env st =>
    (inr (clock env (ticks st)),
     {| history := history st; trace := trace st; ticks := S (ticks st) |}).

(** [st.session_state.history] *)
Definition get_history : M (list Event) :=
  fun _ st =>
    match history st with
    | Some h => (inr h, st)
    | None => (inl (AttributeError "st.session_state has no attribute history"), st)
    end.

(** [st.session_state.history.append(ev)] *)
Definition history_append (ev : Event) : M unit :=
  h <- get_history ;;
  fun _ st =>
    (inr tt, {| history := Some (h ++ [ev]); trace := trace st;
                ticks := ticks st |}).

(** [a[0]] and [a[-1]] on a sequence *)
Definition getitem_first {A} (a : list A) : Result A :=
  match a with
  | x :: _ => inr x
  | [] => inl IndexError
  end.

Definition getitem_last {A} (a : list A) : Result A :=
  match rev a with
  | x :: _ => inr x
  | [] => inl IndexError
  end.

(** Truth value of a list *)
Definition truthy {A} (a : list A) : bool :=
  match a with [] => false | _ :: _ => true end.

(** ** The script, top to bottom *)

(** Lines 8-11: a failed import is reported and leaves [FPDF] unbound. *)
Definition import_fpdf : M unit :=
  env <- ask ;;
  match import_FPDF env with
  | Some _ => ret tt
  | None => draw (st_error "Please run 'pip install fpdf' in your terminal!")
  end.

(** Lines 14-18: the model is loaded first; the first failure is reported
    and skips what is left of the [try] block. *)
Definition load_artifacts : M unit :=
  env <- ask ;;
  match load_model env with
  | inl e => draw (st_error ("Files loading error: " ++ exn_msg e)%string)
  | inr _ =>
      match load_scaler env with
      | inl e => draw (st_error ("Files loading error: " ++ exn_msg e)%string)
      | inr _ => ret tt
      end
  end.

(** The global names [model], [scaler] and [FPDF] after lines 8-18 *)
Definition name_model : M Model :=
  env <- ask ;;
  match load_model env with
  | inr m => ret m
  | inl _ => raise (NameError "model")
  end.

Definition name_scaler : M Scaler :=
  env <- ask ;;
  match load_model env, load_scaler env with
  | inr _, inr s => ret s
  | _, _ => raise (NameError "scaler")
  end.

Definition name_FPDF : M FPDF :=
  env <- ask ;;
  match import_FPDF env with
  | Some lib => ret lib
  | None => raise (NameError "FPDF")
  end.

(** Lines 25-26 *)
Definition init_history : M unit :=
  fun _ st =>
    match history st with
    | Some _ => (inr tt, st)
    | None => (inr tt, {| history := Some []; trace := trace st;
                          ticks := ticks st |})
    end.

(** Line 33 *)
Definition power_of (v i : float) : float := PyFloat.round (PyFloat.mul v i) 2.

(** Line 47: [np.array([[v, i, t, power]])] *)
Definition input_array (v i t power : float) : ndarray := [[v; i; t; power]].

(** Lines 47-50: from the readings to the rounded score *)
Definition score_request (v i t power : float) : M float :=
  let X := input_array v i t power in
  scaler <- name_scaler ;;
  emit (ScalerTransform X) ;;
  scaled_data <- lift (transform scaler X) ;;
  model <- name_model ;;
  emit (ModelPredict scaled_data) ;;
  y <- lift (predict model scaled_data) ;;
  prediction <- lift (getitem_first y) ;;
  ret (PyFloat.round prediction 2).

(** Lines 54-58: the dict literal *)
Definition make_event (time : string) (v i t power score : float)
    (bands : Bands) : Event :=
  let '(rem_life, rec_load, suitability) := bands in
  {| Time := time;
     Voltage := v; Current := i; Temp := t; Power := power;
     Score := score;
     Rem_Life := rem_life; Rec_Load := rec_load; Suitability := suitability |}.

(** Lines 46-58: the body of the button branch *)
Definition on_predict (v i t power : float) : M unit :=
  score <- score_request v i t power ;;
  let bands := get_detailed_prediction score in
  _ <- get_history ;;
  d <- now ;;
  history_append (make_event (strftime_HMS d) v i t power score bands).

(** ** The PDF export (lines 107-133) *)

Definition FPDF_new : PdfDoc := [].
Definition add_page (pdf : PdfDoc) : PdfDoc := pdf ++ [AddPage].
Definition set_font (family style : string) (size : Z) (pdf : PdfDoc) : PdfDoc :=
  pdf ++ [SetFont family style size].
Definition cell (w h : Z) (txt : string) (border : Z) (ln : bool)
    (align : string) (pdf : PdfDoc) : PdfDoc :=
  pdf ++ [Cell w h txt border ln align].
Definition ln (h : option Z) (pdf : PdfDoc) : PdfDoc := pdf ++ [Ln h].

(** Lines 108-114 *)
Definition pdf_heading (generated : string) (pdf : PdfDoc) : PdfDoc :=
  let pdf := add_page pdf in
  let pdf := set_font "Arial" "B" 18 pdf in
  let pdf := cell 190 15 "Battery Health Prediction Report" 0 true "C" pdf in
  let pdf := set_font "Arial" "" 10 pdf in
  let pdf := cell 190 10 ("Report Generated: " ++ generated)%string 0 true "C" pdf in
  ln (Some 10) pdf.

(** Lines 116-122 *)
Definition pdf_table_header (pdf : PdfDoc) : PdfDoc :=
  let pdf := set_font "Arial" "B" 9 pdf in
  let pdf := cell 20 10 "Time" 1 false "" pdf in
  let pdf := cell 20 10 "Health %" 1 false "" pdf in
  let pdf := cell 40 10 "Est. Life" 1 false "" pdf in
  let pdf := cell 40 10 "Rec. Load" 1 false "" pdf in
  let pdf := cell 70 10 "Suitability" 1 false "" pdf in
  ln None pdf.

(** Lines 126-131: the body of the loop *)
Definition pdf_table_row (fstr : float -> string) (pdf : PdfDoc)
    (ir : nat * Event) : PdfDoc :=
  let row := snd ir in
  let pdf := cell 20 10 (Time row) 1 false "" pdf in
  let pdf := cell 20 10 (fstr (Score row) ++ "%")%string 1 false "" pdf in
  let pdf := cell 40 10 (Rem_Life row) 1 false "" pdf in
  let pdf := cell 40 10 (Rec_Load row) 1 false "" pdf in
  let pdf := cell 70 10 (Suitability row) 1 false "" pdf in
  ln None pdf.

(** Lines 108-131: the document as it stands when [output] is called *)
Definition pdf_document (fstr : float -> string) (generated : string)
    (dataframe : DataFrame) : PdfDoc :=
  let pdf := FPDF_new in
  let pdf := pdf_heading generated pdf in
  let pdf := pdf_table_header pdf in
  let pdf := set_font "Arial" "" 8 pdf in
  fold_left (pdf_table_row fstr) (iterrows dataframe) pdf.

Definition export_pdf (dataframe : DataFrame) : M (list Byte.byte) :=
  env <- ask ;;
  lib <- name_FPDF ;;
  d <- now ;;
  let pdf := pdf_document (float_str env) (strftime_Ymd_HM d) dataframe in
  emit (PdfOutput pdf) ;;
  created <- now ;;
  s <- lift (output lib created pdf) ;;
  ret (encode_latin1 s).

(** ** The dashboard (lines 61-142) and the log (lines 145-147) *)

(** [pd.DataFrame(st.session_state.history)] (lines 95 and 147) *)
Definition snapshot : M DataFrame :=
  data <- get_history ;;
  ret (pd_DataFrame data).

(** Lines 137-142 *)
Definition download_section (df : DataFrame) : M unit :=
  try_except
    (pdf_bytes <- export_pdf df ;;
     draw (st_download_button "Download Detailed PDF Report" pdf_bytes
             "Battery_Prediction_Report.pdf" "application/pdf"))
    (draw (st_warning "Install 'fpdf' to enable PDF downloads.")).

(** A figure is built (lines 79-90, 96, 101-103), which may raise, and
    only then handed to [st.plotly_chart] (lines 91, 97, 104). *)
Definition plotly_chart (fig : Figure) : M unit :=
  env <- ask ;;
  lift (build_figure env fig) ;;
  draw (st_plotly_chart fig).

Definition dashboard : M unit :=
  env <- ask ;;
  h <- get_history ;;
  if truthy h then
    last <- lift (getitem_last h) ;;
    draw (st_subheader ("Status: " ++ Suitability last)%string) ;;
    draw (st_metric "Estimated Remaining Life" (Rem_Life last)) ;;
    draw (st_metric "Recommended Load" (Rec_Load last)) ;;
    draw (st_metric "Health Score" (float_str env (Score last) ++ "%")%string) ;;
    draw (st_markdown "---") ;;
    draw (st_subheader "Health Gauge") ;;
    plotly_chart (Gauge (Score last)) ;;
    draw (st_subheader "3D Parameter Analysis") ;;
    df <- snapshot ;;
    plotly_chart (Scatter3d df) ;;
    draw (st_subheader "Suitability Overview") ;;
    plotly_chart (Bar df) ;;
    draw (st_markdown "---") ;;
    download_section df
  else ret tt.

Definition data_logs : M unit :=
  h <- get_history ;;
  if truthy h then
    draw (st_subheader "Session History Logs") ;;
    df <- snapshot ;;
    draw (st_dataframe df)
  else ret tt.

(** Lines 46-58 with the readings of lines 30-33 *)
Definition predict_section : M unit :=
  env <- ask ;;
  let v := input_v env in
  let i := input_i env in
  let t := input_t env in
  let power := power_of v i in
  if button env then on_predict v i t power else ret tt.

(** One rerun of [app.py] *)
Definition script : M unit :=
  import_fpdf ;;
  load_artifacts ;;
  draw (st_title "Battery Health Prediction System") ;;
  draw (st_markdown "---") ;;
  init_history ;;
  draw (st_sidebar_header "Sensor Data Input") ;;
  predict_section ;;
  dashboard ;;
  data_logs.

(** A rerun starts with an empty page; only the session state is carried
    over from the rerun before. *)
Definition start (session : option (list Event)) : Run :=
  {| history := session; trace := []; ticks := 0%nat |}.

Definition rerun (env : Env) (session : option (list Event)) : Result unit * Run :=
  script env (start session).

(** Session states the app can be in: a fresh session, and whatever a
    rerun leaves behind. *)
Inductive reachable : option (list Event) -> Prop :=
| reach_fresh : reachable None
| reach_rerun env session :
    reachable session -> reachable (history (snd (rerun env session))).

(** One session: any number of reruns, one after the other *)
Inductive evolves : option (list Event) -> option (list Event) -> Prop :=
| evolves_refl session : evolves session session
| evolves_rerun env session session' :
    evolves session session' ->
    evolves session (history (snd (rerun env session'))).

Definition session_ledger (session : option (list Event)) : list Event :=
  match session with Some h => h | None => [] end.

(** ** Vocabulary of the properties *)

(** The four rows of the classifier *)
Definition band_excellent : Bands :=
  ("2 - 3 Years", "High (Up to 500W)", "Excellent (Solar/UPS/EV)").
Definition band_good : Bands :=
  ("1 - 2 Years", "Medium (Up to 150W)", "Good (LED/Fans/Small Electronics)").
Definition band_fair : Bands :=
  ("6 Months - 1 Year", "Low (Below 50W)", "Fair (Emergency backup only)").
Definition band_critical : Bands :=
  ("0 Months", "No Load (Recycle)", "Critical (Not safe for use)").

(** A threshold table read from the top: the first row whose lower bound
    the score reaches, else the catch-all row. *)
Fixpoint first_matching_row (table : list (Z * Bands)) (otherwise : Bands)
    (score : float) : Bands :=
  match table with
  | [] => otherwise
  | (bound, row) :: rest =>
      if PyFloat.ge score (PyFloat.of_int bound) then row
      else first_matching_row rest otherwise score
  end.

Definition threshold_table : list (Z * Bands) :=
  [(80, band_excellent); (50, band_good); (30, band_fair)].

(** The table with the labels as the specification prints them *)
Definition spec_threshold_table : list (Z * Bands) :=
  [(80, ("2–3 Years", "High (≤500W)", "Excellent"));
   (50, ("1–2 Years", "Medium (≤150W)", "Good"));
   (30, ("6 Months–1 Year", "Low (<50W)", "Fair"))].

Definition spec_classify (score : float) : Bands :=
  first_matching_row spec_threshold_table
    ("0 Months", "No Load (Recycle)", "Critical") score.

(** The bands stored in an event *)
Definition bands_of (ev : Event) : Bands :=
  (Rem_Life ev, Rec_Load ev, Suitability ev).

(** The outcome of lines 47-50 for the readings of a rerun *)
Definition scorer (env : Env) : Result float :=
  fst (score_request (input_v env) (input_i env) (input_t env)
         (power_of (input_v env) (input_i env)) env (start None)).

(** The event a rerun appends when its button is pressed and the scorer
    answers, as lines 52-58 build it *)
Definition new_events (env : Env) : list Event :=
  if button env then
    match scorer env with
    | inr score =>
        [make_event (strftime_HMS (clock env 0%nat))
           (input_v env) (input_i env) (input_t env)
           (power_of (input_v env) (input_i env)) score
           (get_detailed_prediction score)]
    | inl _ => []
    end
  else [].

(** What lines 8-29 put on the page *)
Definition prelude_trace (env : Env) : list Effect :=
  match import_FPDF env with
  | Some _ => []
  | None => [Draw (st_error "Please run 'pip install fpdf' in your terminal!")]
  end
  ++ match load_model env, load_scaler env with
     | inl e, _ | inr _, inl e =>
         [Draw (st_error ("Files loading error: " ++ exn_msg e)%string)]
     | inr _, inr _ => []
     end
  ++ [Draw (st_title "Battery Health Prediction System");
      Draw (st_markdown "---");
      Draw (st_sidebar_header "Sensor Data Input")].

(** The run state when line 46 is reached *)
Definition at_button (env : Env) (session : option (list Event)) : Run :=
  {| history := Some (session_ledger session);
     trace := prelude_trace env;
     ticks := 0%nat |}.

(** The feature vector of a rerun, in the order the scaler was fitted on *)
Definition feature_vector (env : Env) : ndarray :=
  [[input_v env; input_i env; input_t env;
    PyFloat.round (PyFloat.mul (input_v env) (input_i env)) 2]].

(** [m] leaves the history as it found it. *)
Definition preserves_history {A} (m : M A) : Prop :=
  forall env st, history (snd (m env st)) = history st.

(** [m] returns normally and keeps the history, whenever there is one. *)
Definition safe {A} (m : M A) : Prop :=
  forall env st h,
    history st = Some h ->
    exists a st', m env st = (inr a, st') /\ history st' = Some h.

(** The figures the dashboard builds for the history [h]: the gauge of the
    last score (lines 79-90), the scatter of all events (line 96), the
    bars of all events (lines 101-103); none for an empty history. *)
Definition figures (h : list Event) : list Figure :=
  match getitem_last h with
  | inr last =>
      [Gauge (Score last); Scatter3d (pd_DataFrame h); Bar (pd_DataFrame h)]
  | inl _ => []
  end.

(** Run on the history [h], [m] keeps it and raises nothing but what the
    building of one of the figures of [h] raised. *)
Definition guarded_at {A} (h : list Event) (m : M A) : Prop :=
  forall env st,
    history st = Some h ->
    history (snd (m env st)) = Some h
    /\ forall e, fst (m env st) = inl e ->
                 exists fig, In fig (figures h) /\ build_figure env fig = inl e.

(** [m] adds effects to the trace, each of them satisfying [P]. *)
Definition emits_at (P : Effect -> Prop) {A} (m : M A) (env : Env) (st : Run) : Prop :=
  exists tr, trace (snd (m env st)) = trace st ++ tr /\ Forall P tr.

Definition scaler_called_on (X : ndarray) (f : Effect) : Prop :=
  match f with
  | ScalerTransform X' => X' = X
  | _ => True
  end.

Definition any_effect (f : Effect) : Prop := True.

Definition is_draw (f : Effect) : Prop :=
  match f with
  | Draw _ => True
  | _ => False
  end.

(** The header of the exported table and the cells of one of its rows *)
Definition table_columns : list string :=
  ["Time"; "Health %"; "Est. Life"; "Rec. Load"; "Suitability"].

Definition row_cells (fstr : float -> string) (ev : Event) : list string :=
  [Time ev; (fstr (Score ev) ++ "%")%string; Rem_Life ev; Rec_Load ev;
   Suitability ev].

(** The table of a document read back: the bordered cells, line by line *)
Fixpoint table_rows_from (cur : list string) (doc : PdfDoc) : list (list string) :=
  match doc with
  | [] => match cur with [] => [] | _ => [cur] end
  | Cell _ _ txt 1 _ _ :: rest => table_rows_from (cur ++ [txt]) rest
  | Ln _ :: rest =>
      match cur with
      | [] => table_rows_from [] rest
      | _ => cur :: table_rows_from [] rest
      end
  | _ :: rest => table_rows_from cur rest
  end.

Definition table_rows (doc : PdfDoc) : list (list string) :=
  table_rows_from [] doc.

(** ** Stand-ins for examples *)

(** A scaler that hands the array back, a model that answers one raw
    value whatever it is given, and a scaler that raises *)
Definition stub_scaler : Scaler := {| transform := fun X => inr X |}.
Definition stub_model (raw : float) : Model := {| predict := fun _ => inr [raw] |}.
Definition broken_scaler : Scaler :=
  {| transform := fun _ =>
       inl {| exn_class := "ValueError";
              exn_msg := "X has 4 features, but StandardScaler is expecting 3" |} |}.

(** A PDF writer that puts out one text-showing operator per cell, in
    document order, the way the page stream of a PDF carries its text,
    and then the creation date it read from the clock, to the second. *)
Definition show_text (op : PdfOp) : string :=
  match op with
  | Cell _ _ txt _ _ _ => ("(" ++ txt ++ ") Tj ")%string
  | _ => ""
  end.

Definition creation_date (d : datetime) : string :=
  ("/CreationDate (D:" ++ decimal (year d) ++ two_digits (month d)
   ++ two_digits (day d) ++ two_digits (hour d) ++ two_digits (minute d)
   ++ two_digits (second d) ++ ")")%string.

Definition text_writer : FPDF :=
  {| output := fun created doc =>
       inr (String.concat "" (map show_text doc) ++ creation_date created)%string |}.

(** A plotly that refuses, as the real one does, a marker size that is
    not at least zero: the 3-D scatter takes its sizes from Power. *)
Definition strict_plotly (fig : Figure) : Result unit :=
  match fig with
  | Scatter3d df =>
      if forallb (fun ev => PyFloat.ge (Power ev) (PyFloat.of_int 0)) (df_rows df)
      then inr tt
      else inl {| exn_class := "ValueError";
                  exn_msg := "Invalid element(s) received for the 'size' property of scatter3d.marker" |}
  | _ => inr tt
  end.

(** [str] of a float whose value is a whole number below 10^16 (digits,
    then [.0]); any other float is written as mantissa and exponent. *)
Definition whole_str (x : float) : string :=
  match x with
  | S754_zero s => if s then "-0.0" else "0.0"
  | S754_infinity s => if s then "-inf" else "inf"
  | S754_nan => "nan"
  | S754_finite s m e =>
      let sign := if s then "-" else "" in
      let whole :=
        match e with
        | Zneg p => if (Zpos m mod 2 ^ Zpos p =? 0) then Some (Zpos m / 2 ^ Zpos p) else None
        | _ => Some (Zpos m * 2 ^ e)
        end in
      match whole with
      | Some n => (sign ++ decimal_N (Z.to_N n) ++ ".0")%string
      | None => (sign ++ decimal_N (Npos m) ++ "p" ++
                 (if (e <? 0)%Z then "-" else "") ++ decimal_N (Z.abs_N e))%string
      end
  end.

Definition clock_at (d : datetime) : nat -> datetime := fun _ => d.

Definition morning : datetime :=
  {| year := 2024; month := 5; day := 17; hour := 9; minute := 30; second := 0 |}.
Definition morning_later : datetime :=
  {| year := 2024; month := 5; day := 17; hour := 9; minute := 30; second := 42 |}.
Definition afternoon : datetime :=
  {| year := 2024; month := 5; day := 17; hour := 14; minute := 5; second := 0 |}.

(** The sidebar defaults (52.0 V, 2.0 A, 30.0 C), the button pressed or
    not, and a model that answers [raw] *)
Definition demo_env (raw : float) (pressed : bool) (d : datetime) : Env :=
  {| import_FPDF := Some text_writer;
     load_model := inr (stub_model raw);
     load_scaler := inr stub_scaler;
     input_v := PyFloat.of_int 52;
     input_i := PyFloat.of_int 2;
     input_t := PyFloat.of_int 30;
     button := pressed;
     clock := clock_at d;
     float_str := whole_str;
     build_figure := strict_plotly |}.

(** The same rerun with a scaler fitted on another number of features *)
Definition mismatch_env (raw : float) (d : datetime) : Env :=
  {| import_FPDF := Some text_writer;
     load_model := inr (stub_model raw);
     load_scaler := inr broken_scaler;
     input_v := PyFloat.of_int 52;
     input_i := PyFloat.of_int 2;
     input_t := PyFloat.of_int 30;
     button := true;
     clock := clock_at d;
     float_str := whole_str;
     build_figure := strict_plotly |}.



(** One event of the history, scored 85.0 in the morning *)
Definition demo_event : Event :=
  make_event (strftime_HMS morning) (PyFloat.of_int 52) (PyFloat.of_int 2)
    (PyFloat.of_int 30) (PyFloat.of_int 104) (PyFloat.of_int 85)
    (get_detailed_prediction (PyFloat.of_int 85)).

(** The export of the history that holds this event, at the time [d] *)
Definition demo_export (d : datetime) : Result (list Byte.byte) * Run :=
  export_pdf (pd_DataFrame [demo_event])
    (demo_env (PyFloat.of_int 85) false d) (start (Some [demo_event])).

(** ** Vocabulary of the further properties *)

(** The session state after the reruns [envs], one after the other *)
Definition session_after (envs : list Env) (session : option (list Event)) :
    option (list Event) :=
  fold_left (fun s env => history (snd (rerun env s))) envs session.

(** The calls lines 48-49 make on the loaded artifacts: the scaler on the
    feature vector, then the model on what the scaler returned *)
Definition scorer_calls (env : Env) : list Effect :=
  match load_model env, load_scaler env with
  | inr _, inr sc =>
      ScalerTransform (feature_vector env)
      :: match transform sc (feature_vector env) with
         | inr scaled => [ModelPredict scaled]
         | inl _ => []
         end
  | _, _ => []
  end.

(** Effects of the dashboard and of the log: drawing, and the PDF writer *)
Definition is_view_effect (f : Effect) : Prop :=
  match f with
  | Draw _ | PdfOutput _ => True
  | _ => False
  end.

Definition is_artifact_call (f : Effect) : Prop :=
  match f with
  | ScalerTransform _ | ModelPredict _ => True
  | _ => False
  end.

(** The status line of line 65 is on the page. *)
Definition status_drawn (tr : list Effect) : Prop :=
  exists s, In (Draw (st_subheader ("Status: " ++ s)%string)) tr.

(** What the table of the report prints of a frame: five cells a row *)
Definition printed_rows (fstr : float -> string) (df : DataFrame) :
    list (list string) :=
  map (row_cells fstr) (map snd (iterrows df)).

(** * Properties *)

(** ** Comparisons of floats *)

Lemma SFcompare_swap (x y : float) :
  SFcompare y x = option_map CompOpp (SFcompare x y).
Proof.
  destruct x as [sx|sx| |sx mx ex], y as [sy|sy| |sy my ey];
    try destruct sx; try destruct sy; simpl; try reflexivity;
    rewrite (Z.compare_antisym ey ex);
    destruct (ey ?= ex); simpl; try reflexivity;
    change (Pos.compare_cont Eq my mx) with (Pos.compare my mx);
    change (Pos.compare_cont Eq mx my) with (Pos.compare mx my);
    rewrite (Pos.compare_antisym my mx); try reflexivity;
    rewrite CompOpp_involutive; reflexivity.
Qed.

(** [x < y] rules out [x >= y]. *)
Lemma lt_not_ge (x y : float) :
  PyFloat.lt x y = true -> PyFloat.ge x y = false.
Proof.
  unfold PyFloat.lt, PyFloat.ge, SFltb, SFleb.
  rewrite (SFcompare_swap x y).
  destruct (SFcompare x y) as [[ | | ]|]; simpl; congruence.
Qed.

Lemma of_int_0 : PyFloat.of_int 0 = S754_zero false.
Proof. reflexivity. Qed.

Lemma of_int_30 : PyFloat.of_int 30 = S754_finite false 8444249301319680 (-48).
Proof. vm_compute. reflexivity. Qed.

Lemma of_int_50 : PyFloat.of_int 50 = S754_finite false 7036874417766400 (-47).
Proof. vm_compute. reflexivity. Qed.

Lemma of_int_80 : PyFloat.of_int 80 = S754_finite false 5629499534213120 (-46).
Proof. vm_compute. reflexivity. Qed.

Lemma of_int_100 : PyFloat.of_int 100 = S754_finite false 7036874417766400 (-46).
Proof. vm_compute. reflexivity. Qed.

(** A float below zero is below every positive threshold. *)
Lemma negative_not_ge (s : float) (sign : bool) (m : positive) (e : Z) :
  PyFloat.lt s (PyFloat.of_int 0) = true ->
  PyFloat.ge s (S754_finite false m e) = false.
Proof.
  rewrite of_int_0. unfold PyFloat.lt, PyFloat.ge, SFltb, SFleb.
  destruct s as [s0|s0| |s0 m0 e0]; try destruct s0; simpl;
    intros H; try discriminate H; reflexivity.
Qed.

(** Above 100 is above 80. *)
Lemma above_100_ge_80 (s : float) :
  PyFloat.lt (PyFloat.of_int 100) s = true ->
  PyFloat.ge s (PyFloat.of_int 80) = true.
Proof.
  rewrite of_int_100, of_int_80.
  unfold PyFloat.lt, PyFloat.ge, SFltb, SFleb.
  destruct s as [s0|s0| |s0 m0 e0]; try destruct s0;
    cbv beta iota delta [SFcompare];
    intros H; try discriminate H; try reflexivity.
  destruct (Z.compare (-46) e0); try discriminate H; try reflexivity.
  change (Pos.compare_cont Eq 7036874417766400 m0)
    with (Pos.compare 7036874417766400 m0) in H.
  change (Pos.compare_cont Eq 5629499534213120 m0)
    with (Pos.compare 5629499534213120 m0).
  destruct (Pos.compare 7036874417766400 m0) eqn:E100; try discriminate H.
  apply Pos.compare_lt_iff in E100.
  assert (E80 : Pos.compare 5629499534213120 m0 = Lt)
    by (apply Pos.compare_lt_iff;
        apply Pos.lt_trans with (2 := E100); reflexivity).
  rewrite E80. reflexivity.
Qed.

Lemma of_decimal_29_99 :
  PyFloat.of_decimal false 2999 2 = S754_finite false 8441434551552573 (-48).
Proof. vm_compute. reflexivity. Qed.

(** ** The classifier *)

Lemma classify_ge_80 (s : float) :
  PyFloat.ge s (PyFloat.of_int 80) = true ->
  get_detailed_prediction s = band_excellent.
Proof. unfold get_detailed_prediction. intros ->. reflexivity. Qed.

Lemma classify_ge_50 (s : float) :
  PyFloat.ge s (PyFloat.of_int 80) = false ->
  PyFloat.ge s (PyFloat.of_int 50) = true ->
  get_detailed_prediction s = band_good.
Proof. unfold get_detailed_prediction. intros -> ->. reflexivity. Qed.

Lemma classify_ge_30 (s : float) :
  PyFloat.ge s (PyFloat.of_int 50) = false ->
  PyFloat.ge s (PyFloat.of_int 30) = true ->
  get_detailed_prediction s = band_fair.
Proof.
  unfold get_detailed_prediction. intros H50 H30.
  destruct (PyFloat.ge s (PyFloat.of_int 80)) eqn:H80.
  - (* a score that reaches 80 reaches 50 *)
    exfalso. revert H50 H80. rewrite of_int_50, of_int_80.
    unfold PyFloat.ge, SFleb.
    destruct s as [s0|s0| |s0 m0 e0]; try destruct s0;
      cbv beta iota delta [SFcompare]; try discriminate.
    destruct (Z.compare (-46) e0) eqn:E46.
    + apply Z.compare_eq in E46. subst e0. discriminate.
    + change (-46 < e0) in E46.
      assert (E47 : Z.compare (-47) e0 = Lt) by (change (-47 < e0); lia).
      rewrite E47. discriminate.
    + discriminate.
  - rewrite H50, H30. reflexivity.
Qed.

Lemma classify_lt_30 (s : float) :
  PyFloat.lt s (PyFloat.of_int 30) = true ->
  get_detailed_prediction s = band_critical.
Proof.
  intros H. unfold get_detailed_prediction.
  rewrite (lt_not_ge _ _ H).
  destruct (PyFloat.ge s (PyFloat.of_int 80)) eqn:H80;
    [|destruct (PyFloat.ge s (PyFloat.of_int 50)) eqn:H50; [|reflexivity]];
    exfalso; revert H; rewrite of_int_30;
    [revert H80; rewrite of_int_80 | revert H50; rewrite of_int_50];
    unfold PyFloat.ge, PyFloat.lt, SFleb, SFltb;
    destruct s as [s0|s0| |s0 m0 e0]; try destruct s0;
      cbv beta iota delta [SFcompare]; try discriminate.
  - destruct (Z.compare (-46) e0) eqn:E46; try discriminate; intros _.
    + apply Z.compare_eq in E46. subst e0. discriminate.
    + change (-46 < e0) in E46.
      assert (E48 : Z.compare e0 (-48) = Gt) by (change (e0 > -48); lia).
      rewrite E48. discriminate.
  - destruct (Z.compare (-47) e0) eqn:E47; try discriminate; intros _.
    + apply Z.compare_eq in E47. subst e0. discriminate.
    + change (-47 < e0) in E47.
      assert (E48 : Z.compare e0 (-48) = Gt) by (change (e0 > -48); lia).
      rewrite E48. discriminate.
Qed.

(** C2, as the specification words it: the labels of the table are not
    the strings the code returns.  At score 80 the first row matches, and
    the code answers "2 - 3 Years", "High (Up to 500W)",
    "Excellent (Solar/UPS/EV)", not "2–3 Years", "High (≤500W)",
    "Excellent". *)
Lemma classify_spec_labels_differ :
  PyFloat.ge (PyFloat.of_int 80) (PyFloat.of_int 80) = true
  /\ spec_classify (PyFloat.of_int 80)
     = ("2–3 Years", "High (≤500W)", "Excellent")
  /\ get_detailed_prediction (PyFloat.of_int 80)
     <> spec_classify (PyFloat.of_int 80).
Proof.
  split; [vm_compute; reflexivity|].
  split; [vm_compute; reflexivity|].
  vm_compute. discriminate.
Qed.

(** C2, amended: for every score, [get_detailed_prediction] returns the
    row of the first matching rule of the threshold table read from the
    top, with the labels of the code: a score that reaches 80 gets the
    Excellent row; one that does not but reaches 50 the Good row; one that
    does not but reaches 30 the Fair row; a score below 30 the Critical
    row. *)
Theorem classify_first_matching_row (score : float) :
  get_detailed_prediction score
  = first_matching_row threshold_table band_critical score
  /\ (PyFloat.ge score (PyFloat.of_int 80) = true ->
      get_detailed_prediction score
      = ("2 - 3 Years", "High (Up to 500W)", "Excellent (Solar/UPS/EV)"))
  /\ (PyFloat.ge score (PyFloat.of_int 80) = false ->
      PyFloat.ge score (PyFloat.of_int 50) = true ->
      get_detailed_prediction score
      = ("1 - 2 Years", "Medium (Up to 150W)",
         "Good (LED/Fans/Small Electronics)"))
  /\ (PyFloat.ge score (PyFloat.of_int 50) = false ->
      PyFloat.ge score (PyFloat.of_int 30) = true ->
      get_detailed_prediction score
      = ("6 Months - 1 Year", "Low (Below 50W)",
         "Fair (Emergency backup only)"))
  /\ (PyFloat.lt score (PyFloat.of_int 30) = true ->
      get_detailed_prediction score
      = ("0 Months", "No Load (Recycle)", "Critical (Not safe for use)")).
Proof.
  split; [reflexivity|].
  split; [apply classify_ge_80|].
  split; [apply classify_ge_50|].
  split; [apply classify_ge_30|apply classify_lt_30].
Qed.

(** The four rows at work: scores 92, 64.5, 30 and 12. *)
Lemma classify_first_matching_row_witness :
  get_detailed_prediction (PyFloat.of_int 92) = band_excellent
  /\ get_detailed_prediction (PyFloat.of_decimal false 645 1) = band_good
  /\ get_detailed_prediction (PyFloat.of_int 30) = band_fair
  /\ get_detailed_prediction (PyFloat.of_int 12) = band_critical.
Proof.
  split; [|split; [|split]].
  - apply (classify_first_matching_row (PyFloat.of_int 92)).
    vm_compute. reflexivity.
  - apply (classify_first_matching_row (PyFloat.of_decimal false 645 1));
      vm_compute; reflexivity.
  - apply (classify_first_matching_row (PyFloat.of_int 30));
      vm_compute; reflexivity.
  - apply (classify_first_matching_row (PyFloat.of_int 12)).
    vm_compute. reflexivity.
Defined.

(** C3: [get_detailed_prediction] assigns every float one of four
    distinct band triples by the threshold rules alone, with no clamping:
    80, 50 and 30 fall in the higher band (30.0 is Fair, 29.99 is
    Critical), every score below zero is Critical and every score above
    100 is Excellent. *)
Theorem classify_total_inclusive_bounds :
  (forall score,
      In (get_detailed_prediction score)
         [band_excellent; band_good; band_fair; band_critical])
  /\ NoDup [band_excellent; band_good; band_fair; band_critical]
  /\ (forall score,
        get_detailed_prediction score
        = first_matching_row threshold_table band_critical score)
  /\ get_detailed_prediction (PyFloat.of_int 80) = band_excellent
  /\ get_detailed_prediction (PyFloat.of_int 50) = band_good
  /\ get_detailed_prediction (PyFloat.of_int 30) = band_fair
  /\ String.prefix "Fair" (snd (get_detailed_prediction (PyFloat.of_int 30)))
     = true
  /\ get_detailed_prediction (PyFloat.of_decimal false 2999 2) = band_critical
  /\ String.prefix "Critical"
       (snd (get_detailed_prediction (PyFloat.of_decimal false 2999 2)))
     = true
  /\ (forall score,
        PyFloat.lt score (PyFloat.of_int 0) = true ->
        get_detailed_prediction score = band_critical)
  /\ (forall score,
        PyFloat.lt (PyFloat.of_int 100) score = true ->
        get_detailed_prediction score = band_excellent).
Proof.
  split.
  { intros score. unfold get_detailed_prediction.
    destruct (PyFloat.ge score (PyFloat.of_int 80));
      [|destruct (PyFloat.ge score (PyFloat.of_int 50));
        [|destruct (PyFloat.ge score (PyFloat.of_int 30))]];
      simpl; auto. }
  split.
  { repeat constructor; simpl; intuition discriminate. }
  split; [reflexivity|].
  split; [vm_compute; reflexivity|].
  split; [vm_compute; reflexivity|].
  split; [vm_compute; reflexivity|].
  split; [vm_compute; reflexivity|].
  split; [vm_compute; reflexivity|].
  split; [vm_compute; reflexivity|].
  split.
  - intros score H. unfold get_detailed_prediction.
    rewrite of_int_80, of_int_50, of_int_30.
    rewrite !(negative_not_ge score false _ _ H). reflexivity.
  - intros score H. apply classify_ge_80, above_100_ge_80, H.
Qed.

(** Scores outside [0, 100]: -5 and 250. *)
Lemma classify_total_inclusive_bounds_witness :
  get_detailed_prediction (PyFloat.of_decimal true 5 0) = band_critical
  /\ get_detailed_prediction (PyFloat.of_int 250) = band_excellent.
Proof.
  split.
  - apply classify_total_inclusive_bounds. vm_compute. reflexivity.
  - apply classify_total_inclusive_bounds. vm_compute. reflexivity.
Defined.

(** ** The script monad *)

Lemma bind_inr {A B} (m : M A) (k : A -> M B) env st a st' :
  m env st = (inr a, st') -> bind m k env st = k a env st'.
Proof. unfold bind. intros ->. reflexivity. Qed.

Lemma bind_inl {A B} (m : M A) (k : A -> M B) env st e st' :
  m env st = (inl e, st') -> bind m k env st = (inl e, st').
Proof. unfold bind. intros ->. reflexivity. Qed.

Lemma bind_ask {B} (k : Env -> M B) env st : bind ask k env st = k env env st.
Proof. reflexivity. Qed.

Lemma bind_get_history {B} (k : list Event -> M B) env st h :
  history st = Some h -> bind get_history k env st = k h env st.
Proof. intros H. unfold bind, get_history. rewrite H. reflexivity. Qed.

Lemma bind_lift_inr {A B} (a : A) (k : A -> M B) env st :
  bind (lift (inr a)) k env st = k a env st.
Proof. reflexivity. Qed.

Lemma bind_draw {B} (e : Element) (k : unit -> M B) env st :
  bind (draw e) k env st
  = k tt env {| history := history st; trace := trace st ++ [Draw e];
                ticks := ticks st |}.
Proof. reflexivity. Qed.

Lemma truthy_app {A} (l : list A) (x : A) : truthy (l ++ [x]) = true.
Proof. destruct l; reflexivity. Qed.

Lemma bind_snapshot {B} (k : DataFrame -> M B) env st h :
  history st = Some h -> bind snapshot k env st = k (pd_DataFrame h) env st.
Proof.
  intros H. unfold snapshot, get_history, ret.
  cbv beta iota delta [bind]. rewrite H. reflexivity.
Qed.

Lemma bind_draw_at {B} (e : Element) (k : unit -> M B) env h tr tk :
  bind (draw e) k env {| history := h; trace := tr; ticks := tk |}
  = k tt env {| history := h; trace := tr ++ [Draw e]; ticks := tk |}.
Proof. reflexivity. Qed.

Lemma bind_plotly_chart_at {B} (fig : Figure) (k : unit -> M B) env h tr tk :
  bind (plotly_chart fig) k env {| history := h; trace := tr; ticks := tk |}
  = match build_figure env fig with
    | inl e => (inl e, {| history := h; trace := tr; ticks := tk |})
    | inr _ =>
        k tt env {| history := h; trace := tr ++ [Draw (st_plotly_chart fig)];
                    ticks := tk |}
    end.
Proof.
  unfold plotly_chart, lift, draw, emit. cbv beta iota delta [bind ask].
  destruct (build_figure env fig) as [e|[]]; reflexivity.
Qed.

(** *** Computations that leave the history alone *)

Lemma preserves_ret {A} (a : A) : preserves_history (ret a).
Proof. intros env st. reflexivity. Qed.

Lemma preserves_raise {A} (e : PyExn) : preserves_history (@raise A e).
Proof. intros env st. reflexivity. Qed.

Lemma preserves_ask : preserves_history ask.
Proof. intros env st. reflexivity. Qed.

Lemma preserves_lift {A} (r : Result A) : preserves_history (lift r).
Proof. intros env st. reflexivity. Qed.

Lemma preserves_emit (f : Effect) : preserves_history (emit f).
Proof. intros env st. reflexivity. Qed.

Lemma preserves_draw (e : Element) : preserves_history (draw e).
Proof. intros env st. reflexivity. Qed.

Lemma preserves_now : preserves_history now.
Proof. intros env st. reflexivity. Qed.

Lemma preserves_get_history : preserves_history get_history.
Proof.
  intros env [h tr tk]. unfold get_history. simpl. destruct h; reflexivity.
Qed.

Lemma preserves_bind {A B} (m : M A) (k : A -> M B) :
  preserves_history m -> (forall a, preserves_history (k a)) ->
  preserves_history (bind m k).
Proof.
  intros Hm Hk env st. unfold bind. specialize (Hm env st).
  destruct (m env st) as [[e|a] st']; simpl in *.
  - exact Hm.
  - rewrite Hk. exact Hm.
Qed.

Lemma preserves_try_except {A} (body handler : M A) :
  preserves_history body -> preserves_history handler ->
  preserves_history (try_except body handler).
Proof.
  intros Hb Hh env st. unfold try_except. specialize (Hb env st).
  destruct (body env st) as [[e|a] st']; simpl in *.
  - rewrite Hh. exact Hb.
  - exact Hb.
Qed.

Ltac frame :=
  repeat first
    [ progress intros
    | apply preserves_ret | apply preserves_raise | apply preserves_ask
    | apply preserves_lift | apply preserves_emit | apply preserves_draw
    | apply preserves_now | apply preserves_get_history
    | apply preserves_bind | apply preserves_try_except
    | match goal with
      | |- preserves_history (match ?x with _ => _ end) => destruct x
      end ].

Lemma preserves_name_scaler : preserves_history name_scaler.
Proof. unfold name_scaler. frame. Qed.

Lemma preserves_name_model : preserves_history name_model.
Proof. unfold name_model. frame. Qed.

Lemma preserves_name_FPDF : preserves_history name_FPDF.
Proof. unfold name_FPDF. frame. Qed.

Lemma preserves_score_request v i t power :
  preserves_history (score_request v i t power).
Proof.
  unfold score_request. frame;
    auto using preserves_name_scaler, preserves_name_model.
Qed.

Lemma preserves_snapshot : preserves_history snapshot.
Proof. unfold snapshot. frame. Qed.

Lemma preserves_export_pdf df : preserves_history (export_pdf df).
Proof. unfold export_pdf. frame; auto using preserves_name_FPDF. Qed.

Lemma preserves_download_section df : preserves_history (download_section df).
Proof. unfold download_section. frame; auto using preserves_export_pdf. Qed.

Lemma preserves_dashboard : preserves_history dashboard.
Proof.
  unfold dashboard. frame;
    auto using preserves_snapshot, preserves_download_section.
Qed.

Lemma preserves_data_logs : preserves_history data_logs.
Proof. unfold data_logs. frame; auto using preserves_snapshot. Qed.

Lemma preserves_import_fpdf : preserves_history import_fpdf.
Proof. unfold import_fpdf. frame. Qed.

Lemma preserves_load_artifacts : preserves_history load_artifacts.
Proof. unfold load_artifacts. frame. Qed.

(** *** Computations that cannot raise once the history exists *)

Lemma safe_ret {A} (a : A) : safe (ret a).
Proof. intros env st h H. exists a, st. auto. Qed.

Lemma safe_ask : safe ask.
Proof. intros env st h H. exists env, st. auto. Qed.

Lemma safe_lift_inr {A} (a : A) : safe (lift (inr a)).
Proof. intros env st h H. exists a, st. auto. Qed.

Lemma safe_emit (f : Effect) : safe (emit f).
Proof. intros env st h H. unfold emit. eexists _, _. split; [reflexivity|exact H]. Qed.

Lemma safe_draw (e : Element) : safe (draw e).
Proof. apply safe_emit. Qed.

Lemma safe_now : safe now.
Proof. intros env st h H. unfold now. eexists _, _. split; [reflexivity|exact H]. Qed.

Lemma safe_get_history : safe get_history.
Proof.
  intros env st h H. unfold get_history. rewrite H. exists h, st. auto.
Qed.

Lemma safe_bind {A B} (m : M A) (k : A -> M B) :
  safe m -> (forall a, safe (k a)) -> safe (bind m k).
Proof.
  intros Hm Hk env st h H.
  destruct (Hm env st h H) as (a & st1 & E1 & H1).
  destruct (Hk a env st1 h H1) as (b & st2 & E2 & H2).
  exists b, st2. split; [|exact H2].
  rewrite (bind_inr _ _ _ _ _ _ E1). exact E2.
Qed.

Lemma safe_try_except {A} (body handler : M A) :
  preserves_history body -> safe handler -> safe (try_except body handler).
Proof.
  intros Hb Hh env st h H. unfold try_except.
  specialize (Hb env st). rewrite H in Hb.
  destruct (body env st) as [[e|a] st1]; simpl in Hb.
  - apply Hh, Hb.
  - exists a, st1. auto.
Qed.

Lemma getitem_last_app {A} (l : list A) (x : A) : getitem_last (l ++ [x]) = inr x.
Proof. unfold getitem_last. rewrite rev_app_distr. reflexivity. Qed.

Lemma getitem_last_truthy {A} (l : list A) :
  truthy l = true -> exists l' x, l = l' ++ [x] /\ getitem_last l = inr x.
Proof.
  intros H. destruct (exists_last (l := l)) as (l' & x & ->).
  - intros ->. discriminate H.
  - exists l', x. split; [reflexivity|apply getitem_last_app].
Qed.

Ltac safe_step :=
  first
    [ apply safe_ret | apply safe_ask | apply safe_lift_inr
    | apply safe_draw | apply safe_emit | apply safe_now
    | apply safe_get_history
    | apply safe_bind; [|intros ?] ].

Lemma safe_snapshot : safe snapshot.
Proof. unfold snapshot. repeat safe_step. Qed.

Lemma safe_download_section df : safe (download_section df).
Proof.
  unfold download_section. apply safe_try_except.
  - apply preserves_bind; [apply preserves_export_pdf|].
    intros bytes. apply preserves_draw.
  - apply safe_draw.
Qed.

Lemma safe_data_logs : safe data_logs.
Proof.
  unfold data_logs. safe_step. safe_step.
  destruct (truthy a); [|apply safe_ret].
  repeat safe_step; auto using safe_snapshot.
Qed.

(** *** Computations that raise only what plotly raised *)

Lemma guarded_of_safe {A} h (m : M A) : safe m -> guarded_at h m.
Proof.
  intros Hm env st H. destruct (Hm env st h H) as (a & st' & -> & H').
  split; [exact H'|]. intros e He. discriminate He.
Qed.

Lemma guarded_bind {A B} h (m : M A) (k : A -> M B) :
  guarded_at h m -> (forall a, guarded_at h (k a)) -> guarded_at h (bind m k).
Proof.
  intros Hm Hk env st H. destruct (Hm env st H) as (H1 & R1).
  unfold bind. destruct (m env st) as [[e|a] st1]; simpl in *.
  - split; [exact H1|]. intros e' He. injection He as <-.
    apply R1. reflexivity.
  - apply (Hk a env st1), H1.
Qed.

Lemma guarded_snapshot_bind {B} h (k : DataFrame -> M B) :
  guarded_at h (k (pd_DataFrame h)) -> guarded_at h (bind snapshot k).
Proof.
  intros Hk env st H. rewrite (bind_snapshot _ _ _ _ H). apply Hk, H.
Qed.

Lemma guarded_lift_inr_bind {A B} h (a : A) (k : A -> M B) :
  guarded_at h (k a) -> guarded_at h (bind (lift (inr a)) k).
Proof. intros Hk env st H. exact (Hk env st H). Qed.

Lemma guarded_plotly_chart h fig :
  In fig (figures h) -> guarded_at h (plotly_chart fig).
Proof.
  intros Hin env st H. unfold plotly_chart, lift, draw, emit.
  cbv beta iota delta [bind ask].
  destruct (build_figure env fig) as [e|u] eqn:E; simpl.
  - split; [exact H|]. intros e' He. injection He as <-. exists fig.
    split; [exact Hin|exact E].
  - split; [exact H|]. intros e' He. discriminate He.
Qed.

Lemma guarded_dashboard h : guarded_at h dashboard.
Proof.
  intros env st H. unfold dashboard.
  rewrite bind_ask, (bind_get_history _ _ _ _ H).
  match goal with
  | |- context [fst (?m env st)] =>
      enough (G : guarded_at h m) by exact (G env st H)
  end.
  destruct (truthy h) eqn:T; [|apply guarded_of_safe, safe_ret].
  destruct (getitem_last_truthy _ T) as (l' & x & _ & E).
  assert (F : figures h
              = [Gauge (Score x); Scatter3d (pd_DataFrame h);
                 Bar (pd_DataFrame h)]).
  { unfold figures. rewrite E. reflexivity. }
  rewrite E.
  repeat first
    [ apply guarded_plotly_chart; rewrite F; simpl; tauto
    | apply guarded_lift_inr_bind
    | apply guarded_snapshot_bind
    | apply guarded_of_safe;
      first [ apply safe_lift_inr | apply safe_draw
            | apply safe_download_section ]
    | apply guarded_bind; [|intros ?] ].
Qed.

Lemma guarded_views h : guarded_at h (dashboard ;; data_logs).
Proof.
  apply guarded_bind; [apply guarded_dashboard|].
  intros _. apply guarded_of_safe, safe_data_logs.
Qed.

Lemma figures_nonempty h fig : In fig (figures h) -> h <> [].
Proof. intros Hin ->. exact Hin. Qed.

(** *** What a computation adds to the trace *)

Lemma emits_at_ret P {A} (a : A) env st : emits_at P (ret a) env st.
Proof. exists []. rewrite app_nil_r. auto. Qed.

Lemma emits_at_raise P {A} (e : PyExn) env st : emits_at P (@raise A e) env st.
Proof. exists []. rewrite app_nil_r. auto. Qed.

Lemma emits_at_ask P env st : emits_at P ask env st.
Proof. exists []. rewrite app_nil_r. auto. Qed.

Lemma emits_at_lift P {A} (r : Result A) env st : emits_at P (lift r) env st.
Proof. exists []. rewrite app_nil_r. auto. Qed.

Lemma emits_at_now P env st : emits_at P now env st.
Proof. exists []. rewrite app_nil_r. auto. Qed.

Lemma emits_at_init_history P env st : emits_at P init_history env st.
Proof.
  exists []. rewrite app_nil_r. unfold init_history.
  destruct (history st); auto.
Qed.

Lemma emits_at_get_history P env st : emits_at P get_history env st.
Proof.
  exists []. rewrite app_nil_r. unfold get_history.
  destruct (history st); auto.
Qed.

Lemma emits_at_emit (P : Effect -> Prop) f env st : P f -> emits_at P (emit f) env st.
Proof. intros H. exists [f]. auto. Qed.

Lemma emits_at_draw (P : Effect -> Prop) e env st :
  P (Draw e) -> emits_at P (draw e) env st.
Proof. apply emits_at_emit. Qed.

Lemma emits_at_bind P {A B} (m : M A) (k : A -> M B) env st :
  emits_at P m env st -> (forall a st', emits_at P (k a) env st') ->
  emits_at P (bind m k) env st.
Proof.
  intros (tr1 & E1 & F1) Hk. unfold emits_at, bind in *.
  destruct (m env st) as [[e|a] st1]; simpl in E1.
  - exists tr1. split; [exact E1|exact F1].
  - destruct (Hk a st1) as (tr2 & E2 & F2).
    exists (tr1 ++ tr2). simpl. rewrite E2, E1, app_assoc.
    split; [reflexivity|]. apply Forall_app. split; assumption.
Qed.

Lemma emits_at_ask_bind P {B} (k : Env -> M B) env st :
  emits_at P (k env) env st -> emits_at P (bind ask k) env st.
Proof. intros H. exact H. Qed.

Lemma emits_at_try_except P {A} (body handler : M A) env st :
  emits_at P body env st -> (forall st', emits_at P handler env st') ->
  emits_at P (try_except body handler) env st.
Proof.
  intros (tr1 & E1 & F1) Hh. unfold emits_at, try_except in *.
  destruct (body env st) as [[e|a] st1]; simpl in E1.
  - destruct (Hh st1) as (tr2 & E2 & F2).
    exists (tr1 ++ tr2). simpl. rewrite E2, E1, app_assoc.
    split; [reflexivity|]. apply Forall_app. split; assumption.
  - exists tr1. split; [exact E1|exact F1].
Qed.

Lemma emits_at_history_append P ev env st : emits_at P (history_append ev) env st.
Proof.
  unfold history_append. apply emits_at_bind; [apply emits_at_get_history|].
  intros h st'. exists []. rewrite app_nil_r. auto.
Qed.

Ltac emits_step :=
  cbv beta;
  lazymatch goal with
  | |- emits_at _ (bind ask _) _ _ => apply emits_at_ask_bind
  | |- emits_at _ (bind _ _) _ _ => apply emits_at_bind; [|intros ? ?]
  | |- emits_at _ (try_except _ _) _ _ =>
      apply emits_at_try_except; [|intros ?]
  | |- emits_at _ (ret _) _ _ => apply emits_at_ret
  | |- emits_at _ (raise _) _ _ => apply emits_at_raise
  | |- emits_at _ ask _ _ => apply emits_at_ask
  | |- emits_at _ (lift _) _ _ => apply emits_at_lift
  | |- emits_at _ now _ _ => apply emits_at_now
  | |- emits_at _ get_history _ _ => apply emits_at_get_history
  | |- emits_at _ init_history _ _ => apply emits_at_init_history
  | |- emits_at _ (history_append _) _ _ => apply emits_at_history_append
  | |- emits_at _ (draw _) _ _ => apply emits_at_draw; exact I
  | |- emits_at _ (plotly_chart _) _ _ => unfold plotly_chart
  | |- emits_at _ (emit _) _ _ =>
      apply emits_at_emit; first [exact I | reflexivity]
  | |- emits_at _ (match ?x with _ => _ end) _ _ => destruct x
  end.

(** Every scaler call of a rerun is on the feature vector of that rerun. *)
Lemma emits_script env st :
  emits_at (scaler_called_on (feature_vector env)) script env st.
Proof.
  unfold script, import_fpdf, load_artifacts, predict_section, on_predict,
    score_request, name_scaler, name_model, dashboard, data_logs, snapshot,
    download_section, export_pdf, name_FPDF.
  repeat emits_step.
Qed.

(** ** One rerun, section by section *)

Lemma make_event_fields time v i t power score bands :
  let ev := make_event time v i t power score bands in
  Score ev = score /\ bands_of ev = bands
  /\ [[Voltage ev; Current ev; Temp ev; Power ev]] = [[v; i; t; power]].
Proof. destruct bands as [[l1 l2] l3]. repeat split. Qed.

Lemma rerun_prelude env session :
  rerun env session
  = (predict_section ;; dashboard ;; data_logs) env (at_button env session).
Proof.
  unfold rerun, script, at_button, prelude_trace, import_fpdf, load_artifacts,
    init_history, draw, emit, start, session_ledger.
  cbv beta iota delta [bind ask ret].
  destruct (import_FPDF env), (load_model env), (load_scaler env), session;
    reflexivity.
Qed.

(** Lines 47-50 read the environment only: they touch neither the history
    nor the clock, and their outcome does not depend on the run state. *)
Lemma score_request_outcome v i t power env st :
  exists tr,
    score_request v i t power env st
    = (fst (score_request v i t power env (start None)),
       {| history := history st; trace := trace st ++ tr; ticks := ticks st |}).
Proof.
  unfold score_request, name_scaler, name_model, emit, lift, raise.
  cbv beta iota delta [bind ask ret].
  destruct st as [h tr0 tk]. simpl.
  destruct (load_model env) as [e|md]; [exists []; rewrite app_nil_r; reflexivity|].
  destruct (load_scaler env) as [e|sc]; [exists []; rewrite app_nil_r; reflexivity|].
  destruct (transform sc _) as [e|scaled]; simpl;
    [eexists; reflexivity|].
  destruct (predict md scaled) as [e|y]; simpl;
    [eexists; rewrite <- app_assoc; reflexivity|].
  destruct (getitem_first y) as [e|prediction]; simpl;
    eexists; rewrite <- app_assoc; reflexivity.
Qed.

Lemma on_predict_outcome env st h :
  history st = Some h -> ticks st = 0%nat -> button env = true ->
  exists st',
    on_predict (input_v env) (input_i env) (input_t env)
      (power_of (input_v env) (input_i env)) env st
    = (match scorer env with inl e => inl e | inr _ => inr tt end, st')
    /\ history st' = Some (h ++ new_events env).
Proof.
  intros Hh Ht Hb. unfold new_events, on_predict. rewrite Hb.
  destruct (score_request_outcome (input_v env) (input_i env) (input_t env)
              (power_of (input_v env) (input_i env)) env st) as (tr & E).
  fold (scorer env) in E. unfold bind at 1. rewrite E.
  destruct (scorer env) as [e|score].
  - eexists. split; [reflexivity|]. simpl. rewrite Hh, app_nil_r. reflexivity.
  - unfold history_append, get_history, now.
    cbv beta iota delta [bind]. simpl. rewrite Hh, Ht.
    eexists. split; reflexivity.
Qed.

Lemma predict_section_outcome env session :
  exists st',
    predict_section env (at_button env session)
    = (if button env
       then match scorer env with inl e => inl e | inr _ => inr tt end
       else inr tt, st')
    /\ history st' = Some (session_ledger session ++ new_events env).
Proof.
  unfold predict_section. cbv beta iota delta [bind ask].
  destruct (button env) eqn:Hb.
  - apply on_predict_outcome; auto.
  - exists (at_button env session). unfold new_events. rewrite Hb, app_nil_r.
    split; reflexivity.
Qed.

(** The history a rerun leaves behind, and how the rerun ends *)
Lemma rerun_history env session :
  history (snd (rerun env session))
  = Some (session_ledger session ++ new_events env).
Proof.
  rewrite rerun_prelude.
  destruct (predict_section_outcome env session) as (st1 & E & H).
  unfold bind at 1. rewrite E.
  destruct (button env); [destruct (scorer env)|]; simpl; try exact H;
    apply (guarded_views _ env st1 H).
Qed.

(** A rerun whose scorer raised ends with that exception. *)
Lemma rerun_outcome_failed env session e :
  button env = true -> scorer env = inl e ->
  fst (rerun env session) = inl e.
Proof.
  intros Hb Hs. rewrite rerun_prelude.
  destruct (predict_section_outcome env session) as (st1 & E & H).
  unfold bind at 1. rewrite E, Hb, Hs. reflexivity.
Qed.

(** A rerun whose predict section returned goes on with the two views, from
    a state that holds the history of that rerun. *)
Lemma rerun_after_predict env session :
  (button env = true -> exists score, scorer env = inr score) ->
  exists st1,
    history st1 = Some (session_ledger session ++ new_events env)
    /\ predict_section env (at_button env session) = (inr tt, st1)
    /\ rerun env session = (dashboard ;; data_logs) env st1.
Proof.
  intros Hs. rewrite rerun_prelude.
  destruct (predict_section_outcome env session) as (st1 & E & H).
  exists st1. split; [exact H|].
  assert (E' : predict_section env (at_button env session) = (inr tt, st1)).
  { rewrite E. destruct (button env); [|reflexivity].
    destruct (Hs eq_refl) as (score & ->). reflexivity. }
  split; [exact E'|]. unfold bind at 1. rewrite E'. reflexivity.
Qed.

(** An exception that ends a rerun was raised by the scorer of a request or
    by the building of one of the figures of the history. *)
Lemma rerun_raises env session e :
  fst (rerun env session) = inl e ->
  (button env = true /\ scorer env = inl e)
  \/ exists fig,
       In fig (figures (session_ledger session ++ new_events env))
       /\ build_figure env fig = inl e.
Proof.
  intros He.
  destruct (button env) eqn:Hb; [destruct (scorer env) as [e'|score] eqn:Hs|].
  - left. rewrite (rerun_outcome_failed env session e' Hb Hs) in He.
    injection He as <-. split; reflexivity.
  - right.
    destruct (rerun_after_predict env session) as (st1 & H & _ & E).
    { intros _. rewrite Hs. eexists; reflexivity. }
    rewrite E in He. exact (proj2 (guarded_views _ env st1 H) e He).
  - right.
    destruct (rerun_after_predict env session) as (st1 & H & _ & E).
    { rewrite Hb. discriminate. }
    rewrite E in He. exact (proj2 (guarded_views _ env st1 H) e He).
Qed.

(** A rerun returns when its scorer, if asked, answers and plotly builds
    the figures of the history. *)
Lemma rerun_returns env session :
  (button env = true -> exists score, scorer env = inr score) ->
  (forall fig,
      In fig (figures (session_ledger session ++ new_events env)) ->
      build_figure env fig = inr tt) ->
  fst (rerun env session) = inr tt.
Proof.
  intros Hs Hfig. destruct (fst (rerun env session)) as [e|[]] eqn:E;
    [|reflexivity].
  destruct (rerun_raises env session e E) as [(Hb & He)|(fig & Hin & Ef)].
  - destruct (Hs Hb) as (score & Hsc). rewrite Hsc in He. discriminate He.
  - rewrite (Hfig fig Hin) in Ef. discriminate Ef.
Qed.

Lemma rerun_ledger env session :
  ledger (snd (rerun env session)) = session_ledger session ++ new_events env.
Proof. unfold ledger. rewrite rerun_history. reflexivity. Qed.

(** The scorer answers when both artifacts are loaded and answer. *)
Lemma scorer_answers env sc md scaled raw rest :
  load_model env = inr md -> load_scaler env = inr sc ->
  transform sc (feature_vector env) = inr scaled ->
  predict md scaled = inr (raw :: rest) ->
  scorer env = inr (PyFloat.round raw 2).
Proof.
  intros Hm Hs Ht Hp.
  unfold scorer, score_request, name_scaler, name_model, emit, lift,
    input_array, power_of.
  cbv beta iota delta [bind ask ret].
  rewrite Hm, Hs. unfold feature_vector in Ht. simpl. rewrite Ht. simpl.
  rewrite Hp. reflexivity.
Qed.

(** ** The trace of a rerun *)

Lemma trace_kept_by_bind {A B} (m : M A) (k : A -> M B) env st f :
  (forall a st', emits_at any_effect (k a) env st') ->
  In f (trace (snd (m env st))) ->
  In f (trace (snd (bind m k env st))).
Proof.
  intros Hk Hin. unfold bind.
  destruct (m env st) as [[e|a] st1]; simpl in *; [exact Hin|].
  destruct (Hk a st1) as (tr & -> & _). apply in_or_app. left. exact Hin.
Qed.

Lemma emits_views env st : emits_at any_effect (dashboard ;; data_logs) env st.
Proof.
  unfold dashboard, data_logs, snapshot, download_section, export_pdf,
    name_FPDF.
  repeat emits_step.
Qed.

Lemma score_request_calls_scaler v i t power env st md sc :
  load_model env = inr md -> load_scaler env = inr sc ->
  In (ScalerTransform (input_array v i t power))
     (trace (snd (score_request v i t power env st))).
Proof.
  intros Hm Hs.
  unfold score_request, name_scaler, name_model, emit, lift.
  cbv beta iota delta [bind ask ret]. rewrite Hm, Hs. simpl.
  destruct (transform sc _) as [e|scaled]; simpl.
  - apply in_or_app. right. left. reflexivity.
  - destruct (predict md scaled) as [e|y]; simpl;
      [|destruct (getitem_first y); simpl];
      rewrite <- app_assoc; apply in_or_app; right; left; reflexivity.
Qed.

(** C1: in every rerun the scaler is only ever called on the row
    (voltage, current, temperature, power) with power = round(voltage *
    current, 2), in that order; when the button is pressed and both
    artifacts are loaded the call is made; the event that is appended
    stores the same four values; and for the reading (52.0, 2.0, 30.0) the
    power component is 104.0. *)
Theorem feature_vector_order (env : Env) (session : option (list Event)) :
  let v := input_v env in
  let i := input_i env in
  let t := input_t env in
  let X := [[v; i; t; PyFloat.round (PyFloat.mul v i) 2]] in
  (forall X', In (ScalerTransform X') (trace (snd (rerun env session))) -> X' = X)
  /\ (forall md sc,
        button env = true -> load_model env = inr md -> load_scaler env = inr sc ->
        In (ScalerTransform X) (trace (snd (rerun env session))))
  /\ (forall ev,
        ledger (snd (rerun env session)) = session_ledger session ++ [ev] ->
        [[Voltage ev; Current ev; Temp ev; Power ev]] = X)
  /\ PyFloat.round (PyFloat.mul (PyFloat.of_int 52) (PyFloat.of_int 2)) 2
     = PyFloat.of_int 104.
Proof.
  intros v i t X. split; [|split; [|split]].
  - intros X' Hin.
    destruct (emits_script env (start session)) as (tr & E & F).
    unfold rerun in Hin. rewrite E in Hin. simpl in Hin.
    rewrite Forall_forall in F. apply (F _ Hin).
  - intros md sc Hb Hm Hs. rewrite rerun_prelude.
    apply trace_kept_by_bind; [intros; apply emits_views|].
    unfold predict_section. cbv beta iota delta [bind ask]. rewrite Hb.
    unfold on_predict. apply trace_kept_by_bind.
    + intros score st'. repeat emits_step.
    + apply (score_request_calls_scaler _ _ _ _ _ _ md sc Hm Hs).
  - intros ev. rewrite rerun_ledger. intros H.
    apply app_inv_head in H. unfold new_events in H.
    destruct (button env); [|discriminate H].
    destruct (scorer env) as [e|score]; [discriminate H|].
    injection H as <-. apply make_event_fields.
  - vm_compute. reflexivity.
Qed.

(** The sidebar defaults with a model that answers 85.3: the scaler is
    given (52.0, 2.0, 30.0, 104.0). *)
Lemma feature_vector_order_witness :
  In (ScalerTransform
        [[PyFloat.of_int 52; PyFloat.of_int 2; PyFloat.of_int 30;
          PyFloat.of_int 104]])
     (trace (snd (rerun (demo_env (PyFloat.of_decimal false 853 1) true morning)
                        None))).
Proof.
  change (PyFloat.of_int 104)
    with (PyFloat.round (PyFloat.mul (PyFloat.of_int 52) (PyFloat.of_int 2)) 2).
  apply (feature_vector_order
           (demo_env (PyFloat.of_decimal false 853 1) true morning) None)
    with (md := stub_model (PyFloat.of_decimal false 853 1)) (sc := stub_scaler);
    reflexivity.
Defined.

(** ** The history across reruns *)

Lemma evolves_grows session session' :
  evolves session session' ->
  exists new, session_ledger session' = session_ledger session ++ new.
Proof.
  induction 1 as [session|env session session' _ (new & IH)].
  - exists []. rewrite app_nil_r. reflexivity.
  - exists (new ++ new_events env).
    rewrite rerun_history. simpl. rewrite IH, app_assoc. reflexivity.
Qed.

(** C4: a rerun changes the history by appending only.  When the button
    is pressed and the scorer answers, the history is the one before with
    one event more, and that event is its last element; when the scorer
    raises, the history is the one before and the exception ends the
    rerun; without the button nothing is appended; and over any number of
    reruns the history before stays a prefix of the history after. *)
Theorem ledger_append_only (env : Env) (session : option (list Event)) :
  let before := session_ledger session in
  let after := ledger (snd (rerun env session)) in
  (forall score,
      button env = true -> scorer env = inr score ->
      exists ev,
        after = before ++ [ev]
        /\ List.length after = S (List.length before)
        /\ getitem_last after = inr ev
        /\ Score ev = score)
  /\ (forall e,
        button env = true -> scorer env = inl e ->
        after = before /\ fst (rerun env session) = inl e)
  /\ (button env = false -> after = before)
  /\ (forall session',
        evolves session session' ->
        exists new, session_ledger session' = before ++ new).
Proof.
  intros before after. subst before after. rewrite rerun_ledger.
  unfold new_events. split; [|split; [|split]].
  - intros score -> ->. eexists. split; [reflexivity|].
    split; [rewrite length_app, Nat.add_comm; reflexivity|].
    split; [apply getitem_last_app|].
    apply make_event_fields.
  - intros e Hb Hs. rewrite (rerun_outcome_failed env session e Hb Hs).
    rewrite Hb, Hs. split; [apply app_nil_r|reflexivity].
  - intros ->. apply app_nil_r.
  - apply evolves_grows.
Qed.

(** Two reruns on a session that holds one event: the stub model answers
    45.0 and a second event is appended; the scaler rejects the array and
    the history stays as it was. *)
Lemma ledger_append_only_witness :
  (exists ev,
      ledger (snd (rerun (demo_env (PyFloat.of_int 45) true afternoon)
                         (Some [demo_event])))
      = [demo_event; ev]
      /\ Score ev = PyFloat.of_int 45)
  /\ ledger (snd (rerun (mismatch_env (PyFloat.of_int 45) afternoon)
                        (Some [demo_event])))
     = [demo_event].
Proof.
  split.
  - destruct (ledger_append_only (demo_env (PyFloat.of_int 45) true afternoon)
                (Some [demo_event])) as (Hok & _).
    destruct (Hok (PyFloat.of_int 45)) as (ev & E & _ & _ & S);
      [reflexivity|vm_compute; reflexivity|].
    exists ev. split; [exact E|exact S].
  - destruct (ledger_append_only (mismatch_env (PyFloat.of_int 45) afternoon)
                (Some [demo_event])) as (_ & Hfail & _).
    apply (Hfail {| exn_class := "ValueError";
                    exn_msg := "X has 4 features, but StandardScaler is expecting 3" |});
      reflexivity.
Defined.

(** C5: when the scaler and the model answer, the score that is stored in
    the appended event, and the score the bands of that event are computed
    from, is the first element of the model's output rounded to two
    decimals. *)
Theorem stored_score_is_rounded_output (env : Env)
    (session : option (list Event)) (sc : Scaler) (md : Model)
    (scaled : ndarray) (raw : float) (rest : list float) :
  button env = true ->
  load_model env = inr md ->
  load_scaler env = inr sc ->
  transform sc (feature_vector env) = inr scaled ->
  predict md scaled = inr (raw :: rest) ->
  exists ev,
    ledger (snd (rerun env session)) = session_ledger session ++ [ev]
    /\ Score ev = PyFloat.round raw 2
    /\ bands_of ev = get_detailed_prediction (PyFloat.round raw 2).
Proof.
  intros Hb Hm Hs Ht Hp. rewrite rerun_ledger. unfold new_events.
  rewrite Hb, (scorer_answers env sc md scaled raw rest Hm Hs Ht Hp).
  eexists. split; [reflexivity|].
  split; apply make_event_fields.
Qed.

(** A model that answers 85.2999 on the sidebar defaults: 85.3 is stored,
    with the Excellent row. *)
Lemma stored_score_is_rounded_output_witness :
  exists ev,
    ledger (snd (rerun (demo_env (PyFloat.of_decimal false 852999 4) true morning)
                       None))
    = [ev]
    /\ Score ev = PyFloat.of_decimal false 853 1
    /\ bands_of ev = band_excellent.
Proof.
  destruct (stored_score_is_rounded_output
              (demo_env (PyFloat.of_decimal false 852999 4) true morning) None
              stub_scaler (stub_model (PyFloat.of_decimal false 852999 4))
              (feature_vector
                 (demo_env (PyFloat.of_decimal false 852999 4) true morning))
              (PyFloat.of_decimal false 852999 4) [])
    as (ev & E & S & B); try reflexivity.
  exists ev. split; [exact E|]. split.
  - rewrite S. vm_compute. reflexivity.
  - rewrite B. vm_compute. reflexivity.
Defined.

(** C10: in every session state the app can reach, every event of the
    history carries the bands [get_detailed_prediction] gives for the
    score stored in that same event. *)
Theorem stored_bands_match_score (session : option (list Event)) :
  reachable session ->
  Forall (fun ev => bands_of ev = get_detailed_prediction (Score ev))
         (session_ledger session).
Proof.
  induction 1 as [|env session _ IH].
  - constructor.
  - rewrite rerun_history. simpl. apply Forall_app. split; [exact IH|].
    unfold new_events.
    destruct (button env); [|constructor].
    destruct (scorer env) as [e|score]; constructor; [|constructor].
    destruct (make_event_fields (strftime_HMS (clock env 0%nat)) (input_v env)
                (input_i env) (input_t env)
                (power_of (input_v env) (input_i env)) score
                (get_detailed_prediction score)) as (S & B & _).
    rewrite B, S. reflexivity.
Qed.

(** A fresh session after two predictions, scored 85.0 and 10.0 *)
Lemma stored_bands_match_score_witness :
  Forall (fun ev => bands_of ev = get_detailed_prediction (Score ev))
    (session_ledger
       (history
          (snd (rerun (demo_env (PyFloat.of_int 10) true afternoon)
                  (history
                     (snd (rerun (demo_env (PyFloat.of_int 85) true morning)
                                 None))))))).
Proof.
  apply stored_bands_match_score.
  apply reach_rerun, reach_rerun, reach_fresh.
Defined.

(** ** The dashboard and the snapshots *)

Lemma dashboard_empty env st :
  history st = Some [] -> dashboard env st = (inr tt, st).
Proof.
  intros H. unfold dashboard.
  rewrite bind_ask, (bind_get_history _ _ _ _ H). reflexivity.
Qed.

Lemma data_logs_empty env st :
  history st = Some [] -> data_logs env st = (inr tt, st).
Proof.
  intros H. unfold data_logs.
  rewrite (bind_get_history _ _ _ _ H). reflexivity.
Qed.

(** C8: with an empty history the dashboard returns normally and draws
    nothing, so [history[-1]], which would raise IndexError, is never
    evaluated; with any history, an exception that ends the dashboard was
    raised by plotly while it built one of the three figures of a history
    that is not empty, so that [history[-1]] never raises, and the
    dashboard returns when plotly builds these figures; the status line it
    draws is the one of the last event, also when a figure fails after it;
    and a rerun of a fresh session without a prediction ends normally with
    the page of lines 8-29 only. *)
Theorem dashboard_handles_empty_ledger (env : Env) (st : Run) :
  (history st = Some [] -> dashboard env st = (inr tt, st))
  /\ (forall h e,
        history st = Some h -> fst (dashboard env st) = inl e ->
        h <> []
        /\ exists fig, In fig (figures h) /\ build_figure env fig = inl e)
  /\ (forall h,
        history st = Some h ->
        (forall fig, In fig (figures h) -> build_figure env fig = inr tt) ->
        fst (dashboard env st) = inr tt)
  /\ (forall h last,
        history st = Some (h ++ [last]) ->
        exists tr,
          trace (snd (dashboard env st))
          = trace st
            ++ Draw (st_subheader ("Status: " ++ Suitability last)%string) :: tr)
  /\ (button env = false -> rerun env None = (inr tt, at_button env None))
  /\ getitem_last (@nil Event) = inl IndexError.
Proof.
  split; [apply dashboard_empty|].
  split; [|split; [|split; [|split; [|reflexivity]]]].
  - intros h e H He.
    destruct (proj2 (guarded_dashboard h env st H) e He) as (fig & Hin & Ef).
    split; [exact (figures_nonempty h fig Hin)|]. exists fig. auto.
  - intros h H Hfig. destruct (fst (dashboard env st)) as [e|[]] eqn:E;
      [|reflexivity].
    destruct (proj2 (guarded_dashboard h env st H) e E) as (fig & Hin & Ef).
    rewrite (Hfig fig Hin) in Ef. discriminate Ef.
  - intros h last H. unfold dashboard.
    rewrite bind_ask, (bind_get_history _ _ _ _ H), truthy_app,
      getitem_last_app, bind_lift_inr, bind_draw.
    match goal with
    | |- context [snd (?m env ?st1)] =>
        assert (E : emits_at any_effect m env st1)
    end.
    { unfold snapshot, download_section, export_pdf, name_FPDF.
      repeat emits_step. }
    destruct E as (tr & -> & _). simpl. exists tr.
    rewrite <- app_assoc. reflexivity.
  - intros Hb. rewrite rerun_prelude.
    assert (E : predict_section env (at_button env None)
                = (inr tt, at_button env None)).
    { unfold predict_section. rewrite bind_ask, Hb. reflexivity. }
    rewrite (bind_inr _ _ _ _ _ _ E).
    rewrite (bind_inr _ _ _ _ _ _
               (dashboard_empty env (at_button env None) eq_refl)).
    apply data_logs_empty. reflexivity.
Qed.

(** A fresh session looked at without pressing the button *)
Lemma dashboard_handles_empty_ledger_witness :
  rerun (demo_env (PyFloat.of_int 85) false morning) None
  = (inr tt, at_button (demo_env (PyFloat.of_int 85) false morning) None).
Proof.
  apply (dashboard_handles_empty_ledger
           (demo_env (PyFloat.of_int 85) false morning) (start None)).
  reflexivity.
Defined.

Lemma snapshot_reads env st :
  snapshot env st
  = (match history st with
     | Some h => inr (pd_DataFrame h)
     | None => inl (AttributeError "st.session_state has no attribute history")
     end, st).
Proof.
  unfold snapshot, bind, get_history. destruct (history st); reflexivity.
Qed.

(** C9: [snapshot] does not change the run state, and two snapshots with
    any computation between them that leaves the history alone are equal;
    their rows are the events of the history, in order. *)
Theorem snapshot_idempotent {A} (between : M A) (env : Env) (st : Run) :
  preserves_history between ->
  let first := snapshot env st in
  let st2 := snd (between env (snd first)) in
  let second := snapshot env st2 in
  fst first = fst second
  /\ snd first = st
  /\ snd second = st2
  /\ (forall h,
        history st = Some h ->
        fst first = inr (pd_DataFrame h)
        /\ df_rows (pd_DataFrame h) = h
        /\ List.length (df_index (pd_DataFrame h)) = List.length h).
Proof.
  intros Hb first st2 second. subst first st2 second.
  rewrite !snapshot_reads. simpl. rewrite Hb.
  split; [reflexivity|]. split; [reflexivity|]. split; [reflexivity|].
  intros h ->. split; [reflexivity|]. split; [reflexivity|].
  simpl. apply length_seq.
Qed.

(** The frame of line 95 and the frame of line 147, with the download
    section of lines 137-142 run between them *)
Lemma snapshot_idempotent_witness :
  fst (snapshot (demo_env (PyFloat.of_int 85) false morning)
         (start (Some [demo_event])))
  = fst (snapshot (demo_env (PyFloat.of_int 85) false morning)
           (snd (download_section (pd_DataFrame [demo_event])
                   (demo_env (PyFloat.of_int 85) false morning)
                   (snd (snapshot (demo_env (PyFloat.of_int 85) false morning)
                           (start (Some [demo_event]))))))).
Proof.
  exact (proj1 (snapshot_idempotent
                  (download_section (pd_DataFrame [demo_event]))
                  (demo_env (PyFloat.of_int 85) false morning)
                  (start (Some [demo_event]))
                  (preserves_download_section (pd_DataFrame [demo_event])))).
Defined.

(** ** The exported document *)

(** The six calls of one pass through the loop of lines 125-131 *)
Lemma pdf_table_row_ops fstr pdf ir :
  pdf_table_row fstr pdf ir
  = pdf ++ [Cell 20 10 (Time (snd ir)) 1 false "";
            Cell 20 10 (fstr (Score (snd ir)) ++ "%")%string 1 false "";
            Cell 40 10 (Rem_Life (snd ir)) 1 false "";
            Cell 40 10 (Rec_Load (snd ir)) 1 false "";
            Cell 70 10 (Suitability (snd ir)) 1 false "";
            Ln None].
Proof.
  unfold pdf_table_row, cell, ln. rewrite <- !app_assoc. reflexivity.
Qed.

Lemma pdf_loop_ops fstr rows pdf :
  fold_left (pdf_table_row fstr) rows pdf
  = pdf ++ flat_map (fun ir => pdf_table_row fstr [] ir) rows.
Proof.
  revert pdf. induction rows as [|ir rows IH]; intros pdf;
    cbn [fold_left flat_map].
  - rewrite app_nil_r. reflexivity.
  - rewrite IH, (pdf_table_row_ops fstr pdf), (pdf_table_row_ops fstr []).
    rewrite <- app_assoc. reflexivity.
Qed.

Lemma table_rows_loop fstr rows :
  table_rows_from [] (flat_map (fun ir => pdf_table_row fstr [] ir) rows)
  = map (row_cells fstr) (map snd rows).
Proof.
  induction rows as [|ir rows IH]; cbn [flat_map map]; [reflexivity|].
  rewrite pdf_table_row_ops. simpl. rewrite IH. reflexivity.
Qed.

Lemma map_snd_combine {A B} (l1 : list A) (l2 : list B) :
  List.length l1 = List.length l2 -> map snd (combine l1 l2) = l2.
Proof.
  revert l2. induction l1 as [|a l1 IH]; intros [|b l2] H; simpl in *;
    try discriminate H; [reflexivity|].
  rewrite IH by (injection H; auto). reflexivity.
Qed.

Lemma iterrows_snapshot (h : list Event) :
  map snd (iterrows (pd_DataFrame h)) = h.
Proof. apply map_snd_combine. apply length_seq. Qed.

Lemma pdf_document_table fstr generated df :
  table_rows (pdf_document fstr generated df)
  = table_columns :: map (row_cells fstr) (map snd (iterrows df)).
Proof.
  unfold pdf_document, table_rows. rewrite pdf_loop_ops.
  unfold pdf_table_header, pdf_heading, FPDF_new, set_font, cell, ln, add_page.
  simpl. rewrite table_rows_loop. reflexivity.
Qed.

Lemma pdf_document_ext f g generated df :
  (forall x, f x = g x) ->
  pdf_document f generated df = pdf_document g generated df.
Proof.
  intros H. unfold pdf_document. rewrite !pdf_loop_ops. f_equal.
  apply flat_map_ext. intros ir. rewrite !pdf_table_row_ops, H. reflexivity.
Qed.

(** [export_pdf] with the library imported: the clock reading of line 113,
    one call of [output] on the document, during which the library reads
    the clock for its creation date, and the bytes of what it returns *)
Lemma export_pdf_outcome df env st lib :
  import_FPDF env = Some lib ->
  export_pdf df env st
  = (match output lib (clock env (S (ticks st)))
             (pdf_document (float_str env)
                (strftime_Ymd_HM (clock env (ticks st))) df) with
     | inl e => inl e
     | inr s => inr (encode_latin1 s)
     end,
     {| history := history st;
        trace := trace st
                 ++ [PdfOutput (pdf_document (float_str env)
                                  (strftime_Ymd_HM (clock env (ticks st))) df)];
        ticks := S (S (ticks st)) |}).
Proof.
  intros H. unfold export_pdf, name_FPDF, now, emit, lift.
  cbv beta iota delta [bind ask ret]. rewrite H. simpl.
  destruct (output lib _ _); reflexivity.
Qed.

(** [export_pdf] without the library: NameError for [FPDF], nothing done *)
Lemma export_pdf_unbound df env st :
  import_FPDF env = None ->
  export_pdf df env st = (inl (NameError "FPDF"), st).
Proof.
  intros H. unfold export_pdf, name_FPDF, raise.
  cbv beta iota delta [bind ask]. rewrite H. reflexivity.
Qed.

(** C7: the document [export_pdf] hands to the PDF writer for a snapshot
    of n events holds, read back as a table, the header row Time,
    Health %, Est. Life, Rec. Load, Suitability and then one row per
    event, in order, with the cells of that event in the same column
    order: n + 1 rows in all.  The bytes returned are those the writer
    makes of that document at its own clock reading. *)
Theorem export_table_rows (env : Env) (st : Run) (lib : FPDF) (h : list Event) :
  import_FPDF env = Some lib ->
  exists doc,
    trace (snd (export_pdf (pd_DataFrame h) env st)) = trace st ++ [PdfOutput doc]
    /\ fst (export_pdf (pd_DataFrame h) env st)
       = match output lib (clock env (S (ticks st))) doc with
         | inl e => inl e
         | inr s => inr (encode_latin1 s)
         end
    /\ table_rows doc
       = ["Time"; "Health %"; "Est. Life"; "Rec. Load"; "Suitability"]
         :: map (fun ev => [Time ev; (float_str env (Score ev) ++ "%")%string;
                            Rem_Life ev; Rec_Load ev; Suitability ev]) h
    /\ List.length (table_rows doc) = S (List.length h).
Proof.
  intros H. rewrite (export_pdf_outcome _ _ _ _ H). eexists.
  split; [reflexivity|]. split; [reflexivity|].
  rewrite pdf_document_table, iterrows_snapshot.
  split; [reflexivity|]. simpl. rewrite length_map. reflexivity.
Qed.

(** A snapshot of two events: a header row and two data rows. *)
Lemma export_table_rows_witness :
  exists doc,
    trace (snd (export_pdf (pd_DataFrame [demo_event; demo_event])
                  (demo_env (PyFloat.of_int 85) false morning)
                  (start (Some [demo_event; demo_event]))))
    = [PdfOutput doc]
    /\ table_rows doc
       = [["Time"; "Health %"; "Est. Life"; "Rec. Load"; "Suitability"];
          ["09:30:00"; "85.0%"; "2 - 3 Years"; "High (Up to 500W)";
           "Excellent (Solar/UPS/EV)"];
          ["09:30:00"; "85.0%"; "2 - 3 Years"; "High (Up to 500W)";
           "Excellent (Solar/UPS/EV)"]].
Proof.
  destruct (export_table_rows (demo_env (PyFloat.of_int 85) false morning)
              (start (Some [demo_event; demo_event])) text_writer
              [demo_event; demo_event] eq_refl) as (doc & T & _ & R & _).
  exists doc. split; [exact T|]. rewrite R. vm_compute. reflexivity.
Defined.

(** C6, as the specification words it: the same snapshot exported in the
    morning and in the afternoon gives two different documents, for line
    113 writes the line "Report Generated: " with its clock reading, and
    two different byte streams; and the same snapshot exported twice
    within one minute, 42 seconds apart, gives one document but two byte
    streams with a writer that stamps its creation date to the second, as
    fpdf does. *)
Lemma export_depends_on_clock :
  trace (snd (demo_export morning)) <> trace (snd (demo_export afternoon))
  /\ fst (demo_export morning) <> fst (demo_export afternoon)
  /\ trace (snd (demo_export morning)) = trace (snd (demo_export morning_later))
  /\ fst (demo_export morning) <> fst (demo_export morning_later).
Proof.
  split; [|split; [|split]].
  - vm_compute. intros H. discriminate H.
  - vm_compute. intros H. discriminate H.
  - vm_compute. reflexivity.
  - vm_compute. intros H. discriminate H.
Qed.

(** C6, amended: two exports of equal snapshots, with the same rendering
    of floats, whose clock readings of line 113 print the same under
    '%Y-%m-%d %H:%M', hand the same document to the PDF library: the same
    calls with the same arguments, in the same order.  What each returns
    is what the library makes of that document at its own clock reading,
    taken during [output]; so the two return the same bytes, or raise the
    same exception, when that reading is the same too.  Without the
    library both raise NameError. *)
Theorem export_deterministic_given_clock (df1 df2 : DataFrame)
    (env1 env2 : Env) (st1 st2 : Run) :
  df1 = df2 ->
  import_FPDF env1 = import_FPDF env2 ->
  (forall x, float_str env1 x = float_str env2 x) ->
  strftime_Ymd_HM (clock env1 (ticks st1)) = strftime_Ymd_HM (clock env2 (ticks st2)) ->
  (forall lib,
      import_FPDF env1 = Some lib ->
      exists doc,
        trace (snd (export_pdf df1 env1 st1)) = trace st1 ++ [PdfOutput doc]
        /\ trace (snd (export_pdf df2 env2 st2)) = trace st2 ++ [PdfOutput doc]
        /\ fst (export_pdf df1 env1 st1)
           = match output lib (clock env1 (S (ticks st1))) doc with
             | inl e => inl e
             | inr s => inr (encode_latin1 s)
             end
        /\ fst (export_pdf df2 env2 st2)
           = match output lib (clock env2 (S (ticks st2))) doc with
             | inl e => inl e
             | inr s => inr (encode_latin1 s)
             end)
  /\ (clock env1 (S (ticks st1)) = clock env2 (S (ticks st2)) ->
      fst (export_pdf df1 env1 st1) = fst (export_pdf df2 env2 st2))
  /\ (import_FPDF env1 = None ->
      fst (export_pdf df1 env1 st1) = inl (NameError "FPDF")
      /\ fst (export_pdf df2 env2 st2) = inl (NameError "FPDF")).
Proof.
  intros <- Hlib Hstr Hclock. split; [|split].
  - intros lib H1.
    rewrite (export_pdf_outcome _ _ _ _ H1).
    rewrite Hlib in H1. rewrite (export_pdf_outcome _ _ _ _ H1).
    simpl. rewrite Hclock, (pdf_document_ext _ _ _ _ Hstr).
    eexists. repeat split; reflexivity.
  - intros Hlibclock. destruct (import_FPDF env1) as [lib|] eqn:H1.
    + rewrite (export_pdf_outcome _ _ _ _ H1).
      rewrite (export_pdf_outcome _ _ _ lib (eq_sym Hlib)).
      simpl. rewrite Hclock, Hlibclock, (pdf_document_ext _ _ _ _ Hstr).
      reflexivity.
    + rewrite !export_pdf_unbound by congruence. reflexivity.
  - intros H1. rewrite !export_pdf_unbound by congruence.
    split; reflexivity.
Qed.

(** Two exports of one snapshot 42 seconds apart, within one minute: the
    library is handed one and the same document. *)
Lemma export_deterministic_given_clock_witness :
  exists doc,
    trace (snd (export_pdf (pd_DataFrame [demo_event])
                  (demo_env (PyFloat.of_int 85) false morning)
                  (start (Some [demo_event]))))
    = [PdfOutput doc]
    /\ trace (snd (export_pdf (pd_DataFrame [demo_event])
                     (demo_env (PyFloat.of_int 85) false morning_later)
                     (start (Some [demo_event]))))
       = [PdfOutput doc].
Proof.
  destruct (export_deterministic_given_clock (pd_DataFrame [demo_event])
              (pd_DataFrame [demo_event])
              (demo_env (PyFloat.of_int 85) false morning)
              (demo_env (PyFloat.of_int 85) false morning_later)
              (start (Some [demo_event])) (start (Some [demo_event]))
              eq_refl eq_refl (fun _ => eq_refl) eq_refl)
    as (Hdoc & _).
  destruct (Hdoc text_writer eq_refl) as (doc & T1 & T2 & _).
  exists doc. split; [exact T1|exact T2].
Defined.

(** * Further properties *)

(** ** The trace of a rerun, piece by piece *)

Lemma score_request_exact env st :
  score_request (input_v env) (input_i env) (input_t env)
    (power_of (input_v env) (input_i env)) env st
  = (scorer env,
     {| history := history st; trace := trace st ++ scorer_calls env;
        ticks := ticks st |}).
Proof.
  unfold scorer, scorer_calls, score_request, name_scaler, name_model, emit,
    lift, raise, start, input_array, power_of, feature_vector.
  cbv beta iota delta [bind ask ret].
  destruct st as [h tr0 tk]. simpl.
  destruct (load_model env) as [e|md]; [rewrite app_nil_r; reflexivity|].
  destruct (load_scaler env) as [e|sc]; [rewrite app_nil_r; reflexivity|].
  destruct (transform sc _) as [e|scaled]; simpl; [reflexivity|].
  destruct (predict md scaled) as [e|y]; simpl;
    [rewrite <- app_assoc; reflexivity|].
  destruct (getitem_first y) as [e|prediction]; simpl;
    rewrite <- app_assoc; reflexivity.
Qed.

(** The run state after lines 46-58 *)
Lemma predict_section_exact env session :
  predict_section env (at_button env session)
  = if button env then
      match scorer env with
      | inl e =>
          (inl e,
           {| history := Some (session_ledger session);
              trace := prelude_trace env ++ scorer_calls env;
              ticks := 0%nat |})
      | inr score =>
          (inr tt,
           {| history := Some (session_ledger session ++ new_events env);
              trace := prelude_trace env ++ scorer_calls env;
              ticks := 1%nat |})
      end
    else (inr tt, at_button env session).
Proof.
  unfold predict_section. rewrite bind_ask.
  destruct (button env) eqn:Hb; [|reflexivity].
  unfold on_predict. unfold bind at 1. rewrite score_request_exact.
  unfold new_events. rewrite Hb.
  destruct (scorer env) as [e|score]; [reflexivity|].
  unfold history_append, get_history, now.
  cbv beta iota delta [bind]. reflexivity.
Qed.

Lemma emits_views_only env st :
  emits_at is_view_effect (dashboard ;; data_logs) env st.
Proof.
  unfold dashboard, data_logs, snapshot, download_section, export_pdf,
    name_FPDF.
  repeat emits_step.
Qed.

(** The trace of a rerun: the page of lines 8-29, the artifact calls of a
    pressed button, then views only *)
Lemma rerun_trace env session :
  exists tr,
    trace (snd (rerun env session))
    = prelude_trace env
      ++ (if button env then scorer_calls env else []) ++ tr
    /\ Forall is_view_effect tr.
Proof.
  rewrite rerun_prelude. unfold bind at 1. rewrite predict_section_exact.
  destruct (button env); [destruct (scorer env) as [e|score]|].
  - exists []. rewrite app_nil_r. split; [reflexivity|constructor].
  - destruct (emits_views_only env
                {| history := Some (session_ledger session ++ new_events env);
                   trace := prelude_trace env ++ scorer_calls env;
                   ticks := 1%nat |}) as (tr & E & F).
    exists tr. rewrite E. simpl. rewrite <- app_assoc. split; [reflexivity|exact F].
  - destruct (emits_views_only env (at_button env session)) as (tr & E & F).
    exists tr. rewrite E. split; [reflexivity|exact F].
Qed.

Lemma prelude_trace_draws env : Forall is_draw (prelude_trace env).
Proof.
  unfold prelude_trace.
  destruct (import_FPDF env), (load_model env), (load_scaler env);
    repeat constructor.
Qed.

Lemma view_effect_not_call f : is_view_effect f -> ~ is_artifact_call f.
Proof. destruct f; simpl; tauto. Qed.

Lemma draw_not_call f : is_draw f -> ~ is_artifact_call f.
Proof. destruct f; simpl; tauto. Qed.

(** An artifact call in the trace of a rerun is one of [scorer_calls], and
    the button was pressed. *)
Lemma rerun_artifact_calls env session f :
  In f (trace (snd (rerun env session))) -> is_artifact_call f ->
  button env = true /\ In f (scorer_calls env).
Proof.
  destruct (rerun_trace env session) as (tr & -> & F). intros Hin Hc.
  apply in_app_or in Hin. destruct Hin as [Hin|Hin].
  - exfalso. pose proof (prelude_trace_draws env) as D.
    rewrite Forall_forall in D. exact (draw_not_call _ (D _ Hin) Hc).
  - apply in_app_or in Hin. destruct Hin as [Hin|Hin].
    + destruct (button env); [auto|destruct Hin].
    + exfalso. rewrite Forall_forall in F.
      exact (view_effect_not_call _ (F _ Hin) Hc).
Qed.

(** ** The artifacts *)

Lemma scorer_cases env :
  scorer env
  = match load_model env, load_scaler env with
    | inr md, inr sc =>
        match transform sc (feature_vector env) with
        | inl e => inl e
        | inr scaled =>
            match predict md scaled with
            | inl e => inl e
            | inr [] => inl IndexError
            | inr (raw :: _) => inr (PyFloat.round raw 2)
            end
        end
    | _, _ => inl (NameError "scaler")
    end.
Proof.
  unfold scorer, score_request, name_scaler, name_model, emit, lift, raise,
    start, input_array, power_of, feature_vector.
  cbv beta iota delta [bind ask ret].
  destruct (load_model env) as [e|md]; [reflexivity|].
  destruct (load_scaler env) as [e|sc]; [reflexivity|]. simpl.
  destruct (transform sc _) as [e|scaled]; simpl; [reflexivity|].
  destruct (predict md scaled) as [e|[|raw rest]]; reflexivity.
Qed.

(** X1: when an artifact failed to load (the model, or the scaler after
    it), the page carries the box "Files loading error: ..." with the
    message of the exception, and a press of the button ends the rerun
    with NameError for [scaler]: nothing is appended and neither artifact
    is called. *)
Theorem missing_artifact_blocks_prediction (env : Env)
    (session : option (list Event)) (e : PyExn) :
  load_model env = inl e
  \/ (exists md, load_model env = inr md /\ load_scaler env = inl e) ->
  In (Draw (st_error ("Files loading error: " ++ exn_msg e)%string))
     (trace (snd (rerun env session)))
  /\ (button env = true ->
      fst (rerun env session) = inl (NameError "scaler")
      /\ ledger (snd (rerun env session)) = session_ledger session
      /\ forall f, In f (trace (snd (rerun env session))) -> is_draw f).
Proof.
  intros H.
  assert (Hs : scorer env = inl (NameError "scaler")).
  { rewrite scorer_cases. destruct H as [->|(md & -> & ->)]; reflexivity. }
  assert (Hc : scorer_calls env = []).
  { unfold scorer_calls. destruct H as [->|(md & -> & ->)]; reflexivity. }
  assert (Hp : In (Draw (st_error ("Files loading error: " ++ exn_msg e)%string))
                  (prelude_trace env)).
  { unfold prelude_trace. apply in_or_app. right. apply in_or_app. left.
    destruct H as [->|(md & -> & ->)]; left; reflexivity. }
  split.
  - destruct (rerun_trace env session) as (tr & -> & _).
    apply in_or_app. left. exact Hp.
  - intros Hb. rewrite (rerun_outcome_failed env session _ Hb Hs), rerun_ledger.
    unfold new_events.
    rewrite Hb, Hs. split; [reflexivity|]. split; [apply app_nil_r|].
    rewrite rerun_prelude. unfold bind at 1.
    rewrite predict_section_exact, Hb, Hs, Hc. simpl. rewrite app_nil_r.
    apply Forall_forall, prelude_trace_draws.
Qed.

(** A rerun whose scaler pickle is missing, with the button pressed *)
Lemma missing_artifact_blocks_prediction_witness :
  fst (rerun {| import_FPDF := Some text_writer;
                load_model := inr (stub_model (PyFloat.of_int 85));
                load_scaler :=
                  inl {| exn_class := "FileNotFoundError";
                         exn_msg := "No such file or directory: 'scaler.pkl'" |};
                input_v := PyFloat.of_int 52;
                input_i := PyFloat.of_int 2;
                input_t := PyFloat.of_int 30;
                button := true;
                clock := clock_at morning;
                float_str := whole_str;
                build_figure := strict_plotly |} (Some [demo_event]))
  = inl (NameError "scaler").
Proof.
  eapply (missing_artifact_blocks_prediction _ (Some [demo_event])).
  - right. eexists. split; reflexivity.
  - reflexivity.
Defined.

(** X2: the model is only ever called on what the scaler returned for the
    feature vector of the same rerun, and only when the button was
    pressed; so when the scaler raises, or an artifact is missing, the
    model is not called at all. *)
Theorem model_given_scaler_answer (env : Env) (session : option (list Event))
    (X : ndarray) :
  In (ModelPredict X) (trace (snd (rerun env session))) ->
  button env = true
  /\ exists md sc,
       load_model env = inr md /\ load_scaler env = inr sc
       /\ transform sc (feature_vector env) = inr X.
Proof.
  intros Hin.
  destruct (rerun_artifact_calls env session _ Hin I) as (Hb & Hc).
  split; [exact Hb|]. unfold scorer_calls in Hc.
  destruct (load_model env) as [e|md]; [destruct Hc|].
  destruct (load_scaler env) as [e|sc]; [destruct Hc|].
  exists md, sc. split; [reflexivity|]. split; [reflexivity|].
  destruct Hc as [Hc|Hc]; [discriminate Hc|].
  destruct (transform sc (feature_vector env)) as [e|scaled]; [destruct Hc|].
  destruct Hc as [Hc|[]]. injection Hc as ->. reflexivity.
Qed.

(** The sidebar defaults: the stub scaler hands the array back, and the
    model is called on it. *)
Lemma model_given_scaler_answer_witness :
  transform stub_scaler
    (feature_vector (demo_env (PyFloat.of_int 85) true morning))
  = inr [[PyFloat.of_int 52; PyFloat.of_int 2; PyFloat.of_int 30;
          PyFloat.of_int 104]].
Proof.
  destruct (model_given_scaler_answer
              (demo_env (PyFloat.of_int 85) true morning) None
              [[PyFloat.of_int 52; PyFloat.of_int 2; PyFloat.of_int 30;
                PyFloat.of_int 104]])
    as (_ & md & sc & _ & Hs & Ht).
  - vm_compute. tauto.
  - injection Hs as <-. exact Ht.
Defined.

(** X3: a rerun in which the button is not pressed calls neither artifact
    and draws only, and leaves the history as it was, whether the
    artifacts and the PDF library are loaded or not.  It ends normally
    when plotly builds the three figures of that history, so always on an
    empty history; an exception that ends it is one plotly raised while
    building one of them. *)
Theorem idle_rerun_calls_nothing (env : Env) (session : option (list Event)) :
  button env = false ->
  history (snd (rerun env session)) = Some (session_ledger session)
  /\ (forall f, In f (trace (snd (rerun env session))) -> is_view_effect f)
  /\ (forall e,
        fst (rerun env session) = inl e ->
        exists fig,
          In fig (figures (session_ledger session))
          /\ build_figure env fig = inl e)
  /\ ((forall fig,
         In fig (figures (session_ledger session)) ->
         build_figure env fig = inr tt) ->
      fst (rerun env session) = inr tt)
  /\ (session_ledger session = [] -> fst (rerun env session) = inr tt).
Proof.
  intros Hb.
  assert (Hn : session_ledger session ++ new_events env
               = session_ledger session).
  { unfold new_events. rewrite Hb. apply app_nil_r. }
  assert (Hs : button env = true -> exists score, scorer env = inr score).
  { rewrite Hb. discriminate. }
  rewrite rerun_history, Hn. split; [reflexivity|].
  split; [|split; [|split]].
  - destruct (rerun_trace env session) as (tr & -> & F). rewrite Hb. simpl.
    intros f Hin. apply in_app_or in Hin. destruct Hin as [Hin|Hin].
    + pose proof (prelude_trace_draws env) as D. rewrite Forall_forall in D.
      specialize (D _ Hin). destruct f; simpl in *; tauto.
    + rewrite Forall_forall in F. exact (F _ Hin).
  - intros e He.
    destruct (rerun_raises env session e He) as [(Hb' & _)|R].
    + rewrite Hb in Hb'. discriminate Hb'.
    + rewrite Hn in R. exact R.
  - intros Hfig. apply rerun_returns; [exact Hs|]. rewrite Hn. exact Hfig.
  - intros Hl. apply rerun_returns; [exact Hs|]. rewrite Hn, Hl.
    intros fig [].
Qed.

(** Looking at a session of one event without pressing the button *)
Lemma idle_rerun_calls_nothing_witness :
  history (snd (rerun (demo_env (PyFloat.of_int 85) false afternoon)
                      (Some [demo_event])))
  = Some [demo_event].
Proof.
  apply (idle_rerun_calls_nothing (demo_env (PyFloat.of_int 85) false afternoon)
           (Some [demo_event])).
  reflexivity.
Defined.

(** X4: a rerun ends with an exception only when the button was pressed
    and lines 47-50 raised it: NameError for an unbound [scaler], what
    [scaler.transform] raised, what [model.predict] raised, or IndexError
    for an empty prediction array; or when plotly raised it while building
    one of the three figures of the history that the rerun leaves behind
    (lines 79-90, 96, 101-103).  The status line, the metrics, the PDF
    export and the log never end a rerun. *)
Theorem rerun_raises_from_scorer_or_plotly (env : Env)
    (session : option (list Event)) (e : PyExn) :
  fst (rerun env session) = inl e ->
  (button env = true
   /\ ((e = NameError "scaler"
        /\ ((exists e', load_model env = inl e')
            \/ (exists e', load_scaler env = inl e')))
       \/ exists md sc,
            load_model env = inr md /\ load_scaler env = inr sc
            /\ (transform sc (feature_vector env) = inl e
                \/ exists scaled,
                     transform sc (feature_vector env) = inr scaled
                     /\ (predict md scaled = inl e
                         \/ (predict md scaled = inr [] /\ e = IndexError)))))
  \/ exists fig,
       In fig (figures (ledger (snd (rerun env session))))
       /\ build_figure env fig = inl e.
Proof.
  intros He.
  destruct (rerun_raises env session e He) as [(Hb & H)|(fig & Hin & Ef)];
    [left|right; exists fig; rewrite rerun_ledger; auto].
  split; [exact Hb|]. rewrite scorer_cases in H.
  destruct (load_model env) as [e1|md].
  { left. injection H as <-. split; [reflexivity|]. left. eauto. }
  destruct (load_scaler env) as [e2|sc].
  { left. injection H as <-. split; [reflexivity|]. right. eauto. }
  right. exists md, sc. split; [reflexivity|]. split; [reflexivity|].
  destruct (transform sc (feature_vector env)) as [e3|scaled].
  { left. injection H as <-. reflexivity. }
  right. exists scaled. split; [reflexivity|].
  destruct (predict md scaled) as [e4|[|raw rest]].
  - left. injection H as <-. reflexivity.
  - right. injection H as <-. split; reflexivity.
  - discriminate H.
Qed.

(** The scaler fitted on three features: its ValueError ends the rerun. *)
Lemma rerun_raises_from_scorer_or_plotly_witness :
  exists sc,
    load_scaler (mismatch_env (PyFloat.of_int 45) afternoon) = inr sc
    /\ exists e,
         transform sc (feature_vector (mismatch_env (PyFloat.of_int 45) afternoon))
         = inl e
         /\ fst (rerun (mismatch_env (PyFloat.of_int 45) afternoon) None) = inl e.
Proof.
  destruct (rerun_raises_from_scorer_or_plotly
              (mismatch_env (PyFloat.of_int 45) afternoon) None
              {| exn_class := "ValueError";
                 exn_msg := "X has 4 features, but StandardScaler is expecting 3" |}
              eq_refl)
    as [(_ & [(H & _)|(md & sc & _ & Hs & [Ht|(scaled & Ht & _)])])
       |(fig & Hin & _)].
  - discriminate H.
  - exists sc. split; [exact Hs|]. eexists. split; [exact Ht|reflexivity].
  - injection Hs as <-. discriminate Ht.
  - vm_compute in Hin. destruct Hin.
Defined.

(** ** The download section and the dashboard *)

Lemma download_section_exact df env st :
  download_section df env st
  = (inr tt,
     {| history := history st;
        trace :=
          trace st
          ++ match import_FPDF env with
             | None => [Draw (st_warning "Install 'fpdf' to enable PDF downloads.")]
             | Some lib =>
                 let doc := pdf_document (float_str env)
                              (strftime_Ymd_HM (clock env (ticks st))) df in
                 [PdfOutput doc;
                  match output lib (clock env (S (ticks st))) doc with
                  | inr s =>
                      Draw (st_download_button "Download Detailed PDF Report"
                              (encode_latin1 s)
                              "Battery_Prediction_Report.pdf" "application/pdf")
                  | inl _ =>
                      Draw (st_warning "Install 'fpdf' to enable PDF downloads.")
                  end]
             end;
        ticks := match import_FPDF env with
                 | None => ticks st
                 | Some _ => S (S (ticks st))
                 end |}).
Proof.
  unfold download_section, try_except. unfold bind at 1.
  destruct (import_FPDF env) as [lib|] eqn:H.
  - rewrite (export_pdf_outcome _ _ _ _ H).
    unfold draw, emit.
    destruct (output lib _ _) as [e|s]; simpl; rewrite <- app_assoc;
      reflexivity.
  - rewrite (export_pdf_unbound _ _ _ H). reflexivity.
Qed.

(** X5: the download section never raises and never touches the history.
    Without the library it draws the warning only, calls no PDF writer
    and reads no clock; with the library the clock is read twice, by line
    113 and by the library during [output], the document is handed to
    [output] once, and the download button is drawn carrying the latin-1
    bytes of what [output] returned, or the same warning when [output]
    raised. *)
Theorem download_section_outcomes (df : DataFrame) (env : Env) (st : Run) :
  let st' := snd (download_section df env st) in
  let warning := Draw (st_warning "Install 'fpdf' to enable PDF downloads.") in
  let doc := pdf_document (float_str env)
               (strftime_Ymd_HM (clock env (ticks st))) df in
  fst (download_section df env st) = inr tt
  /\ history st' = history st
  /\ match import_FPDF env with
     | None => trace st' = trace st ++ [warning] /\ ticks st' = ticks st
     | Some lib =>
         ticks st' = S (S (ticks st))
         /\ match output lib (clock env (S (ticks st))) doc with
            | inr s =>
                trace st'
                = trace st
                  ++ [PdfOutput doc;
                      Draw (st_download_button "Download Detailed PDF Report"
                              (encode_latin1 s)
                              "Battery_Prediction_Report.pdf" "application/pdf")]
            | inl _ => trace st' = trace st ++ [PdfOutput doc; warning]
            end
     end.
Proof.
  intros st' warning doc. subst st' warning doc.
  rewrite download_section_exact. simpl.
  split; [reflexivity|]. split; [reflexivity|].
  destruct (import_FPDF env) as [lib|].
  - split; [reflexivity|]. simpl. destruct (output lib _ _); reflexivity.
  - split; reflexivity.
Qed.

(** Lines 65-104 for a history that ends with [last]: the page up to the
    first figure that plotly rejects, or the whole of it and then the
    download section *)
Lemma dashboard_exact env st h last :
  history st = Some (h ++ [last]) ->
  dashboard env st
  = match build_figure env (Gauge (Score last)) with
    | inl e =>
        (inl e,
         {| history := history st;
            trace :=
              trace st
              ++ [Draw (st_subheader ("Status: " ++ Suitability last)%string);
                  Draw (st_metric "Estimated Remaining Life" (Rem_Life last));
                  Draw (st_metric "Recommended Load" (Rec_Load last));
                  Draw (st_metric "Health Score"
                          (float_str env (Score last) ++ "%")%string);
                  Draw (st_markdown "---");
                  Draw (st_subheader "Health Gauge")];
            ticks := ticks st |})
    | inr _ =>
        match build_figure env (Scatter3d (pd_DataFrame (h ++ [last]))) with
        | inl e =>
            (inl e,
             {| history := history st;
                trace :=
                  trace st
                  ++ [Draw (st_subheader ("Status: " ++ Suitability last)%string);
                      Draw (st_metric "Estimated Remaining Life" (Rem_Life last));
                      Draw (st_metric "Recommended Load" (Rec_Load last));
                      Draw (st_metric "Health Score"
                              (float_str env (Score last) ++ "%")%string);
                      Draw (st_markdown "---");
                      Draw (st_subheader "Health Gauge");
                      Draw (st_plotly_chart (Gauge (Score last)));
                      Draw (st_subheader "3D Parameter Analysis")];
                ticks := ticks st |})
        | inr _ =>
            match build_figure env (Bar (pd_DataFrame (h ++ [last]))) with
            | inl e =>
                (inl e,
                 {| history := history st;
                    trace :=
                      trace st
                      ++ [Draw (st_subheader
                                  ("Status: " ++ Suitability last)%string);
                          Draw (st_metric "Estimated Remaining Life"
                                  (Rem_Life last));
                          Draw (st_metric "Recommended Load" (Rec_Load last));
                          Draw (st_metric "Health Score"
                                  (float_str env (Score last) ++ "%")%string);
                          Draw (st_markdown "---");
                          Draw (st_subheader "Health Gauge");
                          Draw (st_plotly_chart (Gauge (Score last)));
                          Draw (st_subheader "3D Parameter Analysis");
                          Draw (st_plotly_chart
                                  (Scatter3d (pd_DataFrame (h ++ [last]))));
                          Draw (st_subheader "Suitability Overview")];
                    ticks := ticks st |})
            | inr _ =>
                download_section (pd_DataFrame (h ++ [last])) env
                  {| history := history st;
                     trace :=
                       trace st
                       ++ [Draw (st_subheader
                                   ("Status: " ++ Suitability last)%string);
                           Draw (st_metric "Estimated Remaining Life"
                                   (Rem_Life last));
                           Draw (st_metric "Recommended Load" (Rec_Load last));
                           Draw (st_metric "Health Score"
                                   (float_str env (Score last) ++ "%")%string);
                           Draw (st_markdown "---");
                           Draw (st_subheader "Health Gauge");
                           Draw (st_plotly_chart (Gauge (Score last)));
                           Draw (st_subheader "3D Parameter Analysis");
                           Draw (st_plotly_chart
                                   (Scatter3d (pd_DataFrame (h ++ [last]))));
                           Draw (st_subheader "Suitability Overview");
                           Draw (st_plotly_chart
                                   (Bar (pd_DataFrame (h ++ [last]))));
                           Draw (st_markdown "---")];
                     ticks := ticks st |}
            end
        end
    end.
Proof.
  destruct st as [h0 tr tk]. cbn [history trace ticks]. intros ->.
  unfold dashboard.
  rewrite bind_ask, (bind_get_history _ _ _ (h ++ [last])) by reflexivity.
  rewrite truthy_app, getitem_last_app, bind_lift_inr.
  do 6 rewrite bind_draw_at.
  rewrite bind_plotly_chart_at.
  destruct (build_figure env (Gauge (Score last))) as [e|u];
    [rewrite <- !app_assoc; reflexivity|].
  rewrite bind_draw_at.
  rewrite (bind_snapshot _ _ _ (h ++ [last])) by reflexivity.
  rewrite bind_plotly_chart_at.
  destruct (build_figure env (Scatter3d _)) as [e|u'];
    [rewrite <- !app_assoc; reflexivity|].
  rewrite bind_draw_at, bind_plotly_chart_at.
  destruct (build_figure env (Bar _)) as [e|u''];
    [rewrite <- !app_assoc; reflexivity|].
  rewrite bind_draw_at.
  rewrite <- !app_assoc. reflexivity.
Qed.

(** The same for a page whose views return: plotly built the three
    figures. *)
Lemma dashboard_returns env st h last :
  history st = Some (h ++ [last]) ->
  fst ((dashboard ;; data_logs) env st) = inr tt ->
  dashboard env st
  = download_section (pd_DataFrame (h ++ [last])) env
      {| history := history st;
         trace :=
           trace st
           ++ [Draw (st_subheader ("Status: " ++ Suitability last)%string);
               Draw (st_metric "Estimated Remaining Life" (Rem_Life last));
               Draw (st_metric "Recommended Load" (Rec_Load last));
               Draw (st_metric "Health Score"
                       (float_str env (Score last) ++ "%")%string);
               Draw (st_markdown "---");
               Draw (st_subheader "Health Gauge");
               Draw (st_plotly_chart (Gauge (Score last)));
               Draw (st_subheader "3D Parameter Analysis");
               Draw (st_plotly_chart (Scatter3d (pd_DataFrame (h ++ [last]))));
               Draw (st_subheader "Suitability Overview");
               Draw (st_plotly_chart (Bar (pd_DataFrame (h ++ [last]))));
               Draw (st_markdown "---")];
         ticks := ticks st |}.
Proof.
  intros H Hok. unfold bind in Hok.
  rewrite (dashboard_exact env st h last H) in Hok |- *.
  destruct (build_figure env (Gauge (Score last))) as [e|u];
    [discriminate Hok|].
  destruct (build_figure env (Scatter3d _)) as [e|u'];
    [discriminate Hok|].
  destruct (build_figure env (Bar _)) as [e|u''];
    [discriminate Hok|].
  reflexivity.
Qed.

(** The status line of the last event opens the page of the dashboard. *)
Lemma dashboard_status env st h last :
  history st = Some (h ++ [last]) ->
  exists tr,
    trace (snd (dashboard env st))
    = trace st
      ++ Draw (st_subheader ("Status: " ++ Suitability last)%string) :: tr.
Proof.
  intros H. rewrite (dashboard_exact env st h last H).
  destruct (build_figure env (Gauge (Score last))) as [e|u];
    [eexists; reflexivity|].
  destruct (build_figure env (Scatter3d _)) as [e|u'];
    [eexists; reflexivity|].
  destruct (build_figure env (Bar _)) as [e|u''];
    [eexists; reflexivity|].
  rewrite download_section_exact. cbn [snd trace].
  rewrite <- app_assoc. eexists. reflexivity.
Qed.

(** Lines 145-147 for a history that is not empty *)
Lemma data_logs_exact env st h last :
  history st = Some (h ++ [last]) ->
  data_logs env st
  = (inr tt,
     {| history := history st;
        trace :=
          trace st
          ++ [Draw (st_subheader "Session History Logs");
              Draw (st_dataframe (pd_DataFrame (h ++ [last])))];
        ticks := ticks st |}).
Proof.
  destruct st as [h0 tr tk]. cbn [history trace ticks]. intros ->.
  unfold data_logs.
  rewrite (bind_get_history _ _ _ (h ++ [last])) by reflexivity.
  rewrite truthy_app, bind_draw_at.
  rewrite (bind_snapshot _ _ _ (h ++ [last])) by reflexivity.
  unfold draw, emit. cbn [history trace ticks].
  rewrite <- app_assoc. reflexivity.
Qed.

(** The page of a rerun that ends normally with a history ending with
    [last]: whatever came before, the dashboard for [last], the download
    section, the log *)
Lemma rerun_views_trace env session h last :
  fst (rerun env session) = inr tt ->
  ledger (snd (rerun env session)) = h ++ [last] ->
  exists before download,
    trace (snd (rerun env session))
    = ((before
        ++ [Draw (st_subheader ("Status: " ++ Suitability last)%string);
            Draw (st_metric "Estimated Remaining Life" (Rem_Life last));
            Draw (st_metric "Recommended Load" (Rec_Load last));
            Draw (st_metric "Health Score"
                    (float_str env (Score last) ++ "%")%string);
            Draw (st_markdown "---");
            Draw (st_subheader "Health Gauge");
            Draw (st_plotly_chart (Gauge (Score last)));
            Draw (st_subheader "3D Parameter Analysis");
            Draw (st_plotly_chart (Scatter3d (pd_DataFrame (h ++ [last]))));
            Draw (st_subheader "Suitability Overview");
            Draw (st_plotly_chart (Bar (pd_DataFrame (h ++ [last]))));
            Draw (st_markdown "---")])
       ++ download)
      ++ [Draw (st_subheader "Session History Logs");
          Draw (st_dataframe (pd_DataFrame (h ++ [last])))].
Proof.
  intros Hok Hl. rewrite rerun_ledger in Hl.
  rewrite rerun_prelude in *.
  destruct (predict_section env (at_button env session)) as [[e|[]] st1] eqn:E.
  { rewrite (bind_inl _ _ _ _ _ _ E) in Hok. discriminate Hok. }
  rewrite (bind_inr _ _ _ _ _ _ E) in Hok |- *.
  assert (H1 : history st1 = Some (h ++ [last])).
  { rewrite predict_section_exact in E. rewrite <- Hl.
    unfold new_events, at_button in *.
    destruct (button env); [destruct (scorer env)|];
      try discriminate E; injection E as E; rewrite <- E; simpl;
      rewrite ?app_nil_r; reflexivity. }
  clear E. destruct st1 as [h1 tr1 tk1]. cbn [history] in H1. subst h1.
  unfold bind.
  rewrite (dashboard_returns env
             {| history := Some (h ++ [last]); trace := tr1; ticks := tk1 |}
             h last eq_refl Hok).
  rewrite download_section_exact. cbn [history trace ticks].
  rewrite (data_logs_exact _ _ h last) by reflexivity.
  cbn [snd history trace ticks].
  eexists _, _. reflexivity.
Qed.

(** X6: in a rerun that ends normally with a history that is not empty,
    the status line, the three metrics and the gauge are those of the
    last event of the history as the rerun leaves it (the event just
    appended, when there is one), and the two charts and the log table
    are drawn from that whole history. *)
Theorem dashboard_shows_latest (env : Env) (session : option (list Event))
    (h : list Event) (last : Event) :
  fst (rerun env session) = inr tt ->
  ledger (snd (rerun env session)) = h ++ [last] ->
  let page := trace (snd (rerun env session)) in
  let df := pd_DataFrame (h ++ [last]) in
  In (Draw (st_subheader ("Status: " ++ Suitability last)%string)) page
  /\ In (Draw (st_metric "Estimated Remaining Life" (Rem_Life last))) page
  /\ In (Draw (st_metric "Recommended Load" (Rec_Load last))) page
  /\ In (Draw (st_metric "Health Score"
                 (float_str env (Score last) ++ "%")%string)) page
  /\ In (Draw (st_plotly_chart (Gauge (Score last)))) page
  /\ In (Draw (st_plotly_chart (Scatter3d df))) page
  /\ In (Draw (st_plotly_chart (Bar df))) page
  /\ In (Draw (st_dataframe df)) page.
Proof.
  intros Hok Hl page df. subst page df.
  destruct (rerun_views_trace env session h last Hok Hl)
    as (before & download & ->).
  repeat split;
    first [ apply in_or_app; right; simpl; tauto
          | apply in_or_app; left; apply in_or_app; left;
            apply in_or_app; right; simpl; tauto ].
Qed.

(** The sidebar defaults scored 85.0 in a fresh session *)
Lemma dashboard_shows_latest_witness :
  In (Draw (st_subheader "Status: Excellent (Solar/UPS/EV)"))
     (trace (snd (rerun (demo_env (PyFloat.of_int 85) true morning) None)))
  /\ In (Draw (st_metric "Health Score" "85.0%"))
        (trace (snd (rerun (demo_env (PyFloat.of_int 85) true morning) None))).
Proof.
  destruct (dashboard_shows_latest (demo_env (PyFloat.of_int 85) true morning)
              None [] demo_event) as (H1 & _ & _ & H4 & _).
  - reflexivity.
  - vm_compute. reflexivity.
  - split; [exact H1|exact H4].
Defined.



(** ** The session over several reruns *)

Lemma session_after_ledger envs session :
  session_ledger (session_after envs session)
  = session_ledger session ++ flat_map new_events envs.
Proof.
  unfold session_after. revert session.
  induction envs as [|env envs IH]; intros session; simpl.
  - rewrite app_nil_r. reflexivity.
  - rewrite IH, rerun_history, app_assoc. reflexivity.
Qed.

(** X7: after any sequence of reruns the history is the history before
    followed by the events of the reruns whose button was pressed and
    whose scorer answered, one event for each, in the order of the
    reruns; each of them carries the score of its rerun; and from the
    first rerun on the 'history' key exists. *)
Theorem history_after_reruns (envs : list Env) (session : option (list Event)) :
  session_ledger (session_after envs session)
  = session_ledger session ++ flat_map new_events envs
  /\ (envs <> [] -> session_after envs session <> None)
  /\ (forall env,
        (new_events env = []
         /\ (button env = false \/ exists e, scorer env = inl e))
        \/ (exists ev,
              new_events env = [ev]
              /\ button env = true /\ scorer env = inr (Score ev)
              /\ Time ev = strftime_HMS (clock env 0%nat))).
Proof.
  split; [apply session_after_ledger|]. split.
  - intros Hne. destruct (exists_last Hne) as (envs' & env & ->).
    unfold session_after. rewrite fold_left_app. simpl.
    rewrite rerun_history. discriminate.
  - intros env. unfold new_events.
    destruct (button env); [|left; split; [reflexivity|left; reflexivity]].
    destruct (scorer env) as [e|score].
    + left. split; [reflexivity|right; exists e; reflexivity].
    + right. eexists. split; [reflexivity|]. split; [reflexivity|].
      unfold make_event.
      destruct (get_detailed_prediction score) as [[l1 l2] l3].
      split; reflexivity.
Qed.

(** Three predictions in a row, scored 85.0, 45.0 and 10.0 *)
Lemma history_after_reruns_witness :
  map Suitability
    (session_ledger
       (session_after [demo_env (PyFloat.of_int 85) true morning;
                       demo_env (PyFloat.of_int 45) true morning_later;
                       demo_env (PyFloat.of_int 10) true afternoon] None))
  = ["Excellent (Solar/UPS/EV)"; "Fair (Emergency backup only)";
     "Critical (Not safe for use)"].
Proof.
  rewrite (proj1 (history_after_reruns _ None)). vm_compute. reflexivity.
Defined.

(** ** The report *)

Lemma row_ops_by_cells fstr a b :
  row_cells fstr (snd a) = row_cells fstr (snd b) ->
  pdf_table_row fstr [] a = pdf_table_row fstr [] b.
Proof.
  intros H. rewrite !pdf_table_row_ops. unfold row_cells in H.
  injection H as -> -> -> -> ->. reflexivity.
Qed.

Lemma loop_ops_by_cells fstr rows1 rows2 :
  map (row_cells fstr) (map snd rows1) = map (row_cells fstr) (map snd rows2) ->
  flat_map (fun ir => pdf_table_row fstr [] ir) rows1
  = flat_map (fun ir => pdf_table_row fstr [] ir) rows2.
Proof.
  revert rows2. induction rows1 as [|a rows1 IH]; intros [|b rows2] H;
    try discriminate H; [reflexivity|].
  cbn [map] in H.
  remember (row_cells fstr (snd a)) as ca eqn:Ea.
  remember (row_cells fstr (snd b)) as cb eqn:Eb.
  injection H as Hab Hrest. subst ca cb. cbn [flat_map].
  rewrite (row_ops_by_cells _ _ _ Hab), (IH _ Hrest). reflexivity.
Qed.

(** X8: the document handed to the PDF writer is fixed by the 'Report
    Generated' stamp and by the five printed cells of each row (Time,
    score with a percent sign, Est. Life, Rec. Load, Suitability), and by
    nothing else: two documents are equal exactly when these agree, so
    the voltage, current, temperature and power of the events, and the
    index of the frame, never reach the report. *)
Theorem report_fixed_by_stamp_and_cells (fstr : float -> string)
    (generated1 generated2 : string) (df1 df2 : DataFrame) :
  pdf_document fstr generated1 df1 = pdf_document fstr generated2 df2
  <-> generated1 = generated2 /\ printed_rows fstr df1 = printed_rows fstr df2.
Proof.
  unfold printed_rows. split.
  - intros H. split.
    + apply (f_equal (fun doc => nth 4 doc AddPage)) in H.
      unfold pdf_document in H. rewrite !pdf_loop_ops in H.
      cbv beta iota delta [pdf_table_header pdf_heading FPDF_new set_font cell
                             ln add_page app nth] in H.
      injection H as H. exact H.
    + apply (f_equal table_rows) in H. rewrite !pdf_document_table in H.
      injection H as H. exact H.
  - intros (-> & H). unfold pdf_document. rewrite !pdf_loop_ops.
    f_equal. apply loop_ops_by_cells, H.
Qed.

(** The same session exported from two frames that differ in the voltage
    column and in the index *)
Lemma report_fixed_by_stamp_and_cells_witness :
  pdf_document whole_str "2024-05-17 09:30" (pd_DataFrame [demo_event])
  = pdf_document whole_str "2024-05-17 09:30"
      {| df_index := [7%nat];
         df_rows :=
           [make_event (strftime_HMS morning) (PyFloat.of_int 48)
              (PyFloat.of_int 2) (PyFloat.of_int 30) (PyFloat.of_int 104)
              (PyFloat.of_int 85)
              (get_detailed_prediction (PyFloat.of_int 85))] |}.
Proof.
  apply report_fixed_by_stamp_and_cells. split; vm_compute; reflexivity.
Defined.

(** ** When the status line is drawn *)

Lemma no_status_before_views env :
  ~ status_drawn (prelude_trace env
                  ++ (if button env then scorer_calls env else [])).
Proof.
  intros (s & Hin). apply in_app_or in Hin. destruct Hin as [Hin|Hin].
  - unfold prelude_trace in Hin.
    destruct (import_FPDF env), (load_model env), (load_scaler env);
      simpl in Hin; intuition discriminate.
  - destruct (button env); [|destruct Hin].
    unfold scorer_calls in Hin.
    destruct (load_model env); [destruct Hin|].
    destruct (load_scaler env) as [|sc]; [destruct Hin|].
    destruct (transform sc (feature_vector env));
      simpl in Hin; intuition discriminate.
Qed.

(** A rerun whose prediction raised, or that leaves an empty history,
    stops before the views or runs them on nothing. *)
Lemma rerun_without_views env session :
  (button env = true /\ exists e, scorer env = inl e)
  \/ ledger (snd (rerun env session)) = [] ->
  trace (snd (rerun env session))
  = prelude_trace env ++ (if button env then scorer_calls env else []).
Proof.
  rewrite rerun_ledger. unfold new_events.
  rewrite rerun_prelude. unfold bind at 1. rewrite predict_section_exact.
  unfold new_events.
  destruct (button env).
  - destruct (scorer env) as [e|score]; [reflexivity|].
    intros [(_ & e & H)|H]; [discriminate H|].
    apply app_eq_nil in H. destruct H as (_ & H). discriminate H.
  - intros [(H & _)|H]; [discriminate H|].
    rewrite app_nil_r in H. unfold at_button. rewrite H, !app_nil_r.
    unfold bind.
    rewrite (dashboard_empty env
               {| history := Some []; trace := prelude_trace env;
                  ticks := 0%nat |} eq_refl).
    rewrite (data_logs_empty env
               {| history := Some []; trace := prelude_trace env;
                  ticks := 0%nat |} eq_refl).
    reflexivity.
Qed.

(** The views put the status line of the last event on the page, whether
    they return or not. *)
Lemma views_status env st h last :
  history st = Some (h ++ [last]) ->
  status_drawn (trace (snd ((dashboard ;; data_logs) env st))).
Proof.
  intros H. exists (Suitability last).
  apply trace_kept_by_bind.
  - intros _ st'. unfold data_logs, snapshot. repeat emits_step.
  - destruct (dashboard_status env st h last H) as (tr & ->).
    apply in_or_app. right. left. reflexivity.
Qed.

(** X9: the status line is on the page of a rerun exactly when lines
    46-58 did not raise and the history the rerun leaves is not empty: so
    in every rerun that ends normally with such a history, and also in one
    that plotly ends further down the page.  After a prediction that
    raised, the dashboard is not drawn in that rerun, even when the
    history holds earlier events. *)
Theorem status_line_iff (env : Env) (session : option (list Event)) :
  (status_drawn (trace (snd (rerun env session)))
   <-> (button env = true -> exists score, scorer env = inr score)
       /\ ledger (snd (rerun env session)) <> [])
  /\ (fst (rerun env session) = inr tt ->
      ledger (snd (rerun env session)) <> [] ->
      status_drawn (trace (snd (rerun env session))))
  /\ (button env = true -> (exists e, scorer env = inl e) ->
      ~ status_drawn (trace (snd (rerun env session)))).
Proof.
  assert (Hback :
            (button env = true -> exists score, scorer env = inr score) ->
            ledger (snd (rerun env session)) <> [] ->
            status_drawn (trace (snd (rerun env session)))).
  { intros Hs Hl.
    destruct (rerun_after_predict env session Hs) as (st1 & H & _ & E).
    rewrite rerun_ledger in Hl.
    destruct (exists_last Hl) as (h & last & El).
    rewrite E. apply (views_status env st1 h last). rewrite H, El.
    reflexivity. }
  split; [split|split].
  - intros Hs. split.
    + intros Hb. destruct (scorer env) as [e|score] eqn:Hsc; [|eauto].
      exfalso. rewrite rerun_without_views in Hs.
      * exact (no_status_before_views env Hs).
      * left. split; [exact Hb|]. exists e. exact Hsc.
    + intros Hl.
      rewrite rerun_without_views in Hs by (right; exact Hl).
      exact (no_status_before_views env Hs).
  - intros (Hs & Hl). exact (Hback Hs Hl).
  - intros Hok Hl. apply Hback; [|exact Hl].
    intros Hb. destruct (scorer env) as [e|score] eqn:Hsc; [|eauto].
    rewrite (rerun_outcome_failed env session e Hb Hsc) in Hok.
    discriminate Hok.
  - intros Hb He Hs. rewrite rerun_without_views in Hs.
    + exact (no_status_before_views env Hs).
    + left. split; assumption.
Qed.

(** A prediction scored 85.0 in a fresh session puts the status line on
    the page. *)
Lemma status_line_iff_witness :
  status_drawn
    (trace (snd (rerun (demo_env (PyFloat.of_int 85) true morning) None))).
Proof.
  apply (proj1 (status_line_iff (demo_env (PyFloat.of_int 85) true morning)
                  None)).
  split.
  - intros _. eexists. vm_compute. reflexivity.
  - vm_compute. discriminate.
Defined.

(** ** The classifier as an order-preserving map *)

(** A float that is at least a float that reaches a positive bound
    reaches it too. *)
Lemma ge_trans_bound (s1 s2 : float) (m : positive) (e : Z) :
  PyFloat.ge s1 (S754_finite false m e) = true ->
  PyFloat.ge s2 s1 = true ->
  PyFloat.ge s2 (S754_finite false m e) = true.
Proof.
  unfold PyFloat.ge, SFleb.
  destruct s1 as [b1|b1| |b1 m1 e1]; try destruct b1;
    destruct s2 as [b2|b2| |b2 m2 e2]; try destruct b2;
    cbv beta iota delta [SFcompare]; try discriminate; try reflexivity.
  destruct (Z.compare_spec e e1) as [E1|E1|E1]; try discriminate;
    destruct (Z.compare_spec e1 e2) as [E2|E2|E2]; try discriminate;
    destruct (Z.compare_spec e e2) as [E3|E3|E3]; try lia; try reflexivity.
  change (Pos.compare_cont Eq m m1) with (Pos.compare m m1).
  change (Pos.compare_cont Eq m1 m2) with (Pos.compare m1 m2).
  change (Pos.compare_cont Eq m m2) with (Pos.compare m m2).
  destruct (Pos.compare_spec m m1); try discriminate;
    destruct (Pos.compare_spec m1 m2); try discriminate;
    destruct (Pos.compare_spec m m2); try lia; reflexivity.
Qed.

(** X10: the classifier never ranks a higher score lower: when s2 >= s1,
    an Excellent s1 makes s2 Excellent, a Good s1 makes s2 Good or
    Excellent, and a Fair s1 keeps s2 out of the Critical row. *)
Theorem classify_monotone (s1 s2 : float) :
  PyFloat.ge s2 s1 = true ->
  (get_detailed_prediction s1 = band_excellent ->
   get_detailed_prediction s2 = band_excellent)
  /\ (get_detailed_prediction s1 = band_good ->
      get_detailed_prediction s2 = band_good
      \/ get_detailed_prediction s2 = band_excellent)
  /\ (get_detailed_prediction s1 = band_fair ->
      get_detailed_prediction s2 <> band_critical).
Proof.
  intros H.
  assert (T80 : PyFloat.ge s1 (PyFloat.of_int 80) = true ->
                PyFloat.ge s2 (PyFloat.of_int 80) = true).
  { rewrite of_int_80. intros G. exact (ge_trans_bound _ _ _ _ G H). }
  assert (T50 : PyFloat.ge s1 (PyFloat.of_int 50) = true ->
                PyFloat.ge s2 (PyFloat.of_int 50) = true).
  { rewrite of_int_50. intros G. exact (ge_trans_bound _ _ _ _ G H). }
  assert (T30 : PyFloat.ge s1 (PyFloat.of_int 30) = true ->
                PyFloat.ge s2 (PyFloat.of_int 30) = true).
  { rewrite of_int_30. intros G. exact (ge_trans_bound _ _ _ _ G H). }
  unfold get_detailed_prediction, band_excellent, band_good, band_fair,
    band_critical.
  destruct (PyFloat.ge s1 (PyFloat.of_int 80));
    [rewrite (T80 eq_refl)|];
    (destruct (PyFloat.ge s1 (PyFloat.of_int 50));
     [try rewrite (T50 eq_refl)|]);
    (destruct (PyFloat.ge s1 (PyFloat.of_int 30));
     [try rewrite (T30 eq_refl)|]);
    repeat split; try discriminate; try (intros _);
    try destruct (PyFloat.ge s2 (PyFloat.of_int 80));
    try destruct (PyFloat.ge s2 (PyFloat.of_int 50));
    auto; discriminate.
Qed.

(** 55.0 is Good; 85.3, above it, is Good or Excellent. *)
Lemma classify_monotone_witness :
  get_detailed_prediction (PyFloat.of_decimal false 853 1) = band_good
  \/ get_detailed_prediction (PyFloat.of_decimal false 853 1) = band_excellent.
Proof.
  apply (classify_monotone (PyFloat.of_int 55) (PyFloat.of_decimal false 853 1));
    vm_compute; reflexivity.
Defined.

(** X11: a model output that is not a finite number is scored, stored
    and classified without any error of lines 46-58: [round] hands a NaN
    or an infinity back unchanged, a NaN or minus infinity is filed under
    the Critical row (every comparison with a NaN is false) and plus
    infinity under the Excellent row.  The event is in the history
    however the rerun ends; an exception that ends it is one plotly
    raised while building a figure of that history. *)
Theorem nonfinite_output_is_classified (env : Env)
    (session : option (list Event)) (sc : Scaler) (md : Model)
    (scaled : ndarray) (raw : float) (rest : list float) :
  button env = true ->
  load_model env = inr md ->
  load_scaler env = inr sc ->
  transform sc (feature_vector env) = inr scaled ->
  predict md scaled = inr (raw :: rest) ->
  raw = S754_nan \/ raw = S754_infinity true \/ raw = S754_infinity false ->
  scorer env = inr raw
  /\ (forall e,
        fst (rerun env session) = inl e ->
        exists fig,
          In fig (figures (ledger (snd (rerun env session))))
          /\ build_figure env fig = inl e)
  /\ exists ev,
       ledger (snd (rerun env session)) = session_ledger session ++ [ev]
       /\ Score ev = raw
       /\ bands_of ev
          = match raw with
            | S754_infinity false => band_excellent
            | _ => band_critical
            end.
Proof.
  intros Hb Hm Hs Ht Hp Hraw.
  pose proof (scorer_answers env sc md scaled raw rest Hm Hs Ht Hp) as Hsc.
  assert (Hr : PyFloat.round raw 2 = raw)
    by (destruct Hraw as [->|[->| ->]]; reflexivity).
  rewrite Hr in Hsc.
  split; [exact Hsc|]. split.
  { intros e He. rewrite rerun_ledger.
    destruct (rerun_raises env session e He) as [(_ & H)|R]; [|exact R].
    rewrite Hsc in H. discriminate H. }
  rewrite rerun_ledger. unfold new_events. rewrite Hb, Hsc.
  eexists. split; [reflexivity|].
  destruct (make_event_fields (strftime_HMS (clock env 0%nat)) (input_v env)
              (input_i env) (input_t env)
              (power_of (input_v env) (input_i env)) raw
              (get_detailed_prediction raw)) as (S & B & _).
  split; [exact S|]. rewrite B.
  destruct Hraw as [->|[->| ->]]; vm_compute; reflexivity.
Qed.

(** A model that answers NaN on the sidebar defaults *)
Lemma nonfinite_output_is_classified_witness :
  exists ev,
    ledger (snd (rerun (demo_env S754_nan true morning) None)) = [ev]
    /\ Score ev = S754_nan
    /\ bands_of ev = band_critical.
Proof.
  destruct (nonfinite_output_is_classified (demo_env S754_nan true morning) None
              stub_scaler (stub_model S754_nan)
              (feature_vector (demo_env S754_nan true morning))
              S754_nan [] eq_refl eq_refl eq_refl eq_refl eq_refl
              (or_introl eq_refl)) as (_ & _ & ev & H).
  exists ev. exact H.
Defined.

(** ** The sign of the current *)

Lemma binary_round_aux_opp (s : bool) (m e : Z) (l : location) :
  binary_round_aux PyFloat.prec PyFloat.emax (negb s) m e l
  = SFopp (binary_round_aux PyFloat.prec PyFloat.emax s m e l).
Proof.
  unfold binary_round_aux.
  destruct (shr_fexp PyFloat.prec PyFloat.emax m e l) as [mrs e1].
  destruct (shr_fexp PyFloat.prec PyFloat.emax _ e1 loc_Exact) as [mrs' e2].
  destruct (shr_m mrs') as [|p|p]; try reflexivity.
  destruct (e2 <=? PyFloat.emax - PyFloat.prec); reflexivity.
Qed.

Lemma mul_opp_r (x y : float) :
  PyFloat.mul x (SFopp y) = SFopp (PyFloat.mul x y).
Proof.
  unfold PyFloat.mul.
  destruct x as [sx|sx| |sx mx ex], y as [sy|sy| |sy my ey];
    unfold SFmul; cbn [SFopp]; rewrite <- ?negb_xorb_r; try reflexivity.
  apply binary_round_aux_opp.
Qed.

Lemma round_opp (x : float) (ndigits : N) :
  PyFloat.round (SFopp x) ndigits = SFopp (PyFloat.round x ndigits).
Proof.
  destruct x as [s|s| |s m e]; try reflexivity.
  unfold PyFloat.round. simpl SFopp at 1.
  destruct (PyFloat.NDIGITS_MAX <? Z.of_N ndigits); [reflexivity|].
  cbv zeta. unfold PyFloat.of_decimal.
  match goal with
  | |- match ?d with _ => _ end = _ => destruct d as [|n|n]
  end; try reflexivity.
  unfold PyFloat.nearest_quotient.
  destruct (SFdiv_core_binary _ _ _ _ _ _) as [[mz ez] lz].
  apply binary_round_aux_opp.
Qed.

Lemma mul_opp_l (x y : float) :
  PyFloat.mul (SFopp x) y = SFopp (PyFloat.mul x y).
Proof.
  unfold PyFloat.mul.
  destruct x as [sx|sx| |sx mx ex], y as [sy|sy| |sy my ey];
    unfold SFmul; cbn [SFopp]; rewrite <- ?negb_xorb_l; try reflexivity.
  apply binary_round_aux_opp.
Qed.

(** X13: the power feature is odd in the current and in the voltage:
    reversing the sign of either reverses the sign of the power and
    changes nothing else, zeros and rounding ties included, because the
    product and [round] both round to nearest with ties to even. *)
Theorem power_odd_in_current (v i : float) :
  power_of v (SFopp i) = SFopp (power_of v i)
  /\ power_of (SFopp v) i = SFopp (power_of v i).
Proof.
  unfold power_of. rewrite mul_opp_r, mul_opp_l. split; apply round_opp.
Qed.

(** ** The report of a rerun *)

(** The whole page of a rerun that ends normally with a history ending
    with [last] *)
Lemma rerun_page_exact env session h last :
  fst (rerun env session) = inr tt ->
  ledger (snd (rerun env session)) = h ++ [last] ->
  trace (snd (rerun env session))
  = (((prelude_trace env ++ (if button env then scorer_calls env else []))
      ++ [Draw (st_subheader ("Status: " ++ Suitability last)%string);
          Draw (st_metric "Estimated Remaining Life" (Rem_Life last));
          Draw (st_metric "Recommended Load" (Rec_Load last));
          Draw (st_metric "Health Score"
                  (float_str env (Score last) ++ "%")%string);
          Draw (st_markdown "---");
          Draw (st_subheader "Health Gauge");
          Draw (st_plotly_chart (Gauge (Score last)));
          Draw (st_subheader "3D Parameter Analysis");
          Draw (st_plotly_chart (Scatter3d (pd_DataFrame (h ++ [last]))));
          Draw (st_subheader "Suitability Overview");
          Draw (st_plotly_chart (Bar (pd_DataFrame (h ++ [last]))));
          Draw (st_markdown "---")])
     ++ match import_FPDF env with
        | None => [Draw (st_warning "Install 'fpdf' to enable PDF downloads.")]
        | Some lib =>
            let doc :=
              pdf_document (float_str env)
                (strftime_Ymd_HM (clock env (List.length (new_events env))))
                (pd_DataFrame (h ++ [last])) in
            [PdfOutput doc;
             match output lib
                     (clock env (S (List.length (new_events env)))) doc with
             | inr s =>
                 Draw (st_download_button "Download Detailed PDF Report"
                         (encode_latin1 s)
                         "Battery_Prediction_Report.pdf" "application/pdf")
             | inl _ =>
                 Draw (st_warning "Install 'fpdf' to enable PDF downloads.")
             end]
        end)
    ++ [Draw (st_subheader "Session History Logs");
        Draw (st_dataframe (pd_DataFrame (h ++ [last])))].
Proof.
  intros Hok Hl. rewrite rerun_ledger in Hl. rewrite rerun_prelude in Hok |- *.
  unfold bind at 1 in Hok. unfold bind at 1.
  rewrite predict_section_exact in Hok |- *. unfold new_events in *.
  destruct (button env); [destruct (scorer env) as [e|score]|];
    try discriminate Hok; unfold at_button in *; rewrite ?app_nil_r in *;
    rewrite Hl in *;
    match type of Hok with
    | fst (_ env ?st) = _ =>
        unfold bind; rewrite (dashboard_returns env st h last eq_refl Hok)
    end;
    rewrite download_section_exact; cbn [history trace ticks];
    rewrite (data_logs_exact _ _ h last) by reflexivity;
    cbn [snd history trace ticks List.length]; reflexivity.
Qed.

(** Views that raise have handed no document to the PDF writer. *)
Lemma views_raise_no_report env st hist e doc :
  history st = Some hist ->
  fst ((dashboard ;; data_logs) env st) = inl e ->
  In (PdfOutput doc) (trace (snd ((dashboard ;; data_logs) env st))) ->
  In (PdfOutput doc) (trace st).
Proof.
  intros H. unfold bind.
  destruct hist as [|ev0 l0].
  { rewrite (dashboard_empty env st H), (data_logs_empty env st H).
    intros Hok. discriminate Hok. }
  assert (Hne : ev0 :: l0 <> []) by discriminate.
  destruct (exists_last Hne) as (h & last & E). rewrite E in H.
  rewrite (dashboard_exact env st h last H).
  destruct (build_figure env (Gauge (Score last))) as [e1|u].
  { intros _ Hin. cbn [snd trace] in Hin. apply in_app_or in Hin.
    destruct Hin as [Hin|Hin]; [exact Hin|].
    simpl in Hin. intuition discriminate. }
  destruct (build_figure env (Scatter3d _)) as [e2|u'].
  { intros _ Hin. cbn [snd trace] in Hin. apply in_app_or in Hin.
    destruct Hin as [Hin|Hin]; [exact Hin|].
    simpl in Hin. intuition discriminate. }
  destruct (build_figure env (Bar _)) as [e3|u''].
  { intros _ Hin. cbn [snd trace] in Hin. apply in_app_or in Hin.
    destruct Hin as [Hin|Hin]; [exact Hin|].
    simpl in Hin. intuition discriminate. }
  rewrite download_section_exact.
  rewrite (data_logs_exact _ _ h last) by exact H.
  intros Hok. discriminate Hok.
Qed.

Lemma no_report_before_views env doc :
  ~ In (PdfOutput doc)
       (prelude_trace env ++ (if button env then scorer_calls env else [])).
Proof.
  intros Hin. apply in_app_or in Hin. destruct Hin as [Hin|Hin].
  - pose proof (prelude_trace_draws env) as D. rewrite Forall_forall in D.
    exact (D _ Hin).
  - destruct (button env); [|destruct Hin].
    unfold scorer_calls in Hin.
    destruct (load_model env); [destruct Hin|].
    destruct (load_scaler env) as [|sc]; [destruct Hin|].
    destruct Hin as [Hin|Hin]; [discriminate Hin|].
    destruct (transform sc (feature_vector env)); [destruct Hin|].
    destruct Hin as [Hin|[]]. discriminate Hin.
Qed.

(** A rerun that raises has handed no document to the PDF writer. *)
Lemma rerun_raised_no_report env session e doc :
  fst (rerun env session) = inl e ->
  ~ In (PdfOutput doc) (trace (snd (rerun env session))).
Proof.
  pose proof (no_report_before_views env doc) as N.
  intros Hok Hin. rewrite rerun_prelude in Hok, Hin.
  unfold bind at 1 in Hok. unfold bind at 1 in Hin.
  rewrite predict_section_exact in Hok, Hin.
  destruct (button env); [destruct (scorer env) as [e'|score]|].
  - exact (N Hin).
  - apply N.
    match type of Hok with
    | fst (_ env ?st) = _ =>
        exact (views_raise_no_report env st _ e doc eq_refl Hok Hin)
    end.
  - apply N. rewrite app_nil_r.
    exact (views_raise_no_report env (at_button env session) _ e doc
             eq_refl Hok Hin).
Qed.

(** X12: a PDF document is written in a rerun only when the rerun ends
    normally with a history that is not empty and the PDF library is
    imported, and then it is the document of the whole history as the
    rerun leaves it, the event just appended included: its table reads
    back as the header row followed by one row per event of that
    history.  Conversely such a rerun does write that document. *)
Theorem report_tabulates_history (env : Env) (session : option (list Event)) :
  let after := ledger (snd (rerun env session)) in
  let report :=
    pdf_document (float_str env)
      (strftime_Ymd_HM (clock env (List.length (new_events env))))
      (pd_DataFrame after) in
  (forall doc,
      In (PdfOutput doc) (trace (snd (rerun env session))) ->
      fst (rerun env session) = inr tt
      /\ after <> []
      /\ import_FPDF env <> None
      /\ doc = report
      /\ table_rows doc
         = table_columns :: map (row_cells (float_str env)) after)
  /\ (fst (rerun env session) = inr tt -> after <> [] ->
      import_FPDF env <> None ->
      In (PdfOutput report) (trace (snd (rerun env session)))).
Proof.
  intros after report. subst after report.
  destruct (fst (rerun env session)) as [e|[]] eqn:Hok.
  { split; [|discriminate]. intros doc Hin. exfalso.
    exact (rerun_raised_no_report env session e doc Hok Hin). }
  destruct (ledger (snd (rerun env session))) as [|ev0 l0] eqn:Hl.
  { split; [|intros _ H; contradiction H; reflexivity].
    intros doc Hin. exfalso.
    rewrite rerun_without_views in Hin by (right; exact Hl).
    exact (no_report_before_views env doc Hin). }
  assert (Hne : ev0 :: l0 <> []) by discriminate.
  destruct (exists_last Hne) as (h & last & E). rewrite E in *.
  rewrite (rerun_page_exact env session h last Hok Hl).
  split.
  - intros doc Hin. split; [reflexivity|]. split; [exact Hne|].
    apply in_app_or in Hin. destruct Hin as [Hin|Hin];
      [|simpl in Hin; intuition discriminate].
    apply in_app_or in Hin. destruct Hin as [Hin|Hin].
    + exfalso. apply in_app_or in Hin. destruct Hin as [Hin|Hin];
        [|simpl in Hin; intuition discriminate].
      exact (no_report_before_views env doc Hin).
    + destruct (import_FPDF env) as [lib|];
        [|simpl in Hin; intuition discriminate].
      split; [discriminate|].
      cbv zeta in Hin. destruct Hin as [Hin|[Hin|[]]].
      * injection Hin as <-. split; [reflexivity|].
        rewrite pdf_document_table, iterrows_snapshot. reflexivity.
      * destruct (output lib _); discriminate Hin.
  - intros _ _ Hlib. destruct (import_FPDF env) as [lib|];
      [|contradiction Hlib; reflexivity].
    apply in_or_app. left. apply in_or_app. right. left. reflexivity.
Qed.

(** A second prediction, scored 45.0, on a session of one event: the
    report written in that rerun has a header row and two data rows. *)
Lemma report_tabulates_history_witness :
  exists doc,
    In (PdfOutput doc)
       (trace (snd (rerun (demo_env (PyFloat.of_int 45) true afternoon)
                          (Some [demo_event]))))
    /\ List.length (table_rows doc) = 3%nat.
Proof.
  destruct (report_tabulates_history
              (demo_env (PyFloat.of_int 45) true afternoon) (Some [demo_event]))
    as (Hall & Hin).
  eexists. split.
  - apply Hin; vm_compute; [reflexivity|discriminate|discriminate].
  - rewrite pdf_document_table, iterrows_snapshot.
    vm_compute. reflexivity.
Defined.
